(** * Sticky-expanding scroll effect: the three composables

    A shallow embedding of the height computation and of the listener
    life cycle of

    - [StickyBox]: [useStickyBox] of src/composables/useStickyAnimation.ts
      (document-offset geometry),
    - [Middle]:    [useStickyExpansion] of src/unnamed/part_000
      (viewport-relative geometry, plain scroll listener),
    - [Refined]:   [useStickyExpansion] of src/unnamed/part_001
      (viewport-relative geometry, resize re-anchoring, throttled listeners).

    Pixel quantities are JavaScript numbers in the source.  They are modelled
    as exact integers ([Z]): [Math.max] is [Z.max], [Math.min] is [Z.min],
    and arithmetic neither rounds nor produces NaN.

    A handler is a function from the closure state to the new closure state
    and the list of heights it assigns to [style.height], in order. *)

From Stdlib Require Import ZArith List Bool Lia.
Import ListNotations.
Local Open Scope Z_scope.

(** ** The host environment, as the handlers sample it *)

Record DOMRect := { top : Z; bottom : Z }.

Record HTMLElement := {
  getBoundingClientRect : DOMRect;
  offsetTop : Z;
  offsetHeight : Z
}.

Record Window := { scrollY : Z; innerHeight : Z }.

Record IntersectionObserverEntry := {
  isIntersecting : bool;
  target : HTMLElement
}.

(** What a handler reads when it runs: the window and the two template
    refs ([null] is [None]).  The layout is sampled afresh at every call. *)
Record Host := {
  window : Window;
  stickyElementRef : option HTMLElement;
  containerRef : option HTMLElement
}.

(** [const { x = d } = options]: the default applies when the field is
    absent. *)
Definition orDefault (d : Z) (o : option Z) : Z :=
  match o with
  | Some v => v
  | None => d
  end.

(** [Math.max(lo, Math.min(x, hi))], the expression every variant ends
    with. *)
Definition clamp (x lo hi : Z) : Z := Z.max lo (Z.min x hi).

(** ** Options of [useStickyExpansion] (the same interface in part_000 and
    part_001) *)

Record StickyExpansionOptions := {
  opt_minHeight : option Z;
  opt_maxHeight : option Z;
  opt_headerHeight : option Z;
  opt_stickyPadding : option Z
}.

Record Config := {
  minHeight : Z;
  maxHeight : Z;
  headerHeight : Z;
  stickyPadding : Z
}.

Definition destructure (options : StickyExpansionOptions) : Config :=
  {| minHeight := orDefault 640 (opt_minHeight options);
     maxHeight := orDefault 1000 (opt_maxHeight options);
     headerHeight := orDefault 60 (opt_headerHeight options);
     stickyPadding := orDefault 20 (opt_stickyPadding options) |}.

Definition noOptions : StickyExpansionOptions :=
  {| opt_minHeight := None; opt_maxHeight := None;
     opt_headerHeight := None; opt_stickyPadding := None |}.

Definition stickyTriggerOffset (c : Config) : Z :=
  headerHeight c + stickyPadding c.

(** ** The rate limiter *)

(** Modelled from the spec: lodash-es [throttle] is an external dependency
    and its source is not part of the repository.  The spec describes it as
    a collaborator that delivers a call at most once per window and always
    delivers a final trailing call.  [windowOpen] says that the 100 ms timer
    is armed, [trailingPending] that a call arrived while it was. *)
Record Throttle := { windowOpen : bool; trailingPending : bool }.

Definition idle : Throttle :=
  {| windowOpen := false; trailingPending := false |}.

(** A call of the throttled function: the new limiter state, and whether
    the wrapped handler runs now (leading edge). *)
Definition throttle_call (t : Throttle) : Throttle * bool :=
  if windowOpen t
  then ({| windowOpen := true; trailingPending := true |}, false)
  else ({| windowOpen := true; trailingPending := false |}, true).

(** The timer expires: a pending call runs the wrapped handler (trailing
    edge) and opens the next window. *)
Definition throttle_expire (t : Throttle) : Throttle * bool :=
  if windowOpen t
  then if trailingPending t
       then ({| windowOpen := true; trailingPending := false |}, true)
       else (idle, false)
  else (t, false).

(** ** part_001: the refined variant *)

Module Refined.

Record State := {
  hasStartedExpanding : bool;
  expansionStartScrollY : Z;
  expansionStartHeight : Z
}.

Definition init (c : Config) : State :=
  {| hasStartedExpanding := false;
     expansionStartScrollY := 0;
     expansionStartHeight := minHeight c |}.

(** Returns the new height and the write of it. *)
Definition updateHeightToFitViewport (c : Config) (w : Window)
    (element : HTMLElement) : Z * list Z :=
  let boxRect := getBoundingClientRect element in
  let idealHeight := innerHeight w - top boxRect - stickyPadding c in
  let newHeight := Z.max (minHeight c) (Z.min idealHeight (maxHeight c)) in
  (newHeight, [newHeight]).

Definition scrollDrivenHeight (w : Window) (st : State) : Z :=
  let scrollDelta := scrollY w - expansionStartScrollY st in
  expansionStartHeight st + Z.max 0 scrollDelta.

Definition viewportLimitedHeight (c : Config) (w : Window)
    (stickyElRect : DOMRect) : Z :=
  innerHeight w - top stickyElRect - stickyPadding c.

Definition potentialHeight (c : Config) (w : Window) (stickyElRect : DOMRect)
    (st : State) : Z :=
  Z.min (scrollDrivenHeight w st) (viewportLimitedHeight c w stickyElRect).

Definition currentMaxHeight (c : Config) (potential : Z) : Z :=
  Z.min potential (maxHeight c).

Definition isCollapsing (c : Config) (containerBottom cmh : Z) : bool :=
  containerBottom <? cmh + stickyTriggerOffset c.

Definition distancePastEnd (c : Config) (containerBottom cmh : Z) : Z :=
  cmh + stickyTriggerOffset c - containerBottom.

(** The value of the [if (isCollapsing)] branch. *)
Definition collapsedHeight (c : Config) (containerBottom cmh : Z) : Z :=
  cmh - distancePastEnd c containerBottom cmh.

(** [newHeight] before the final clamp. *)
Definition rawHeight (c : Config) (containerBottom potential : Z) : Z :=
  let cmh := currentMaxHeight c potential in
  if isCollapsing c containerBottom cmh
  then collapsedHeight c containerBottom cmh
  else potential.

Definition finalHeight (c : Config) (w : Window)
    (containerRect stickyElRect : DOMRect) (st : State) : Z :=
  let newHeight :=
    rawHeight c (bottom containerRect) (potentialHeight c w stickyElRect st) in
  Z.max (minHeight c) (Z.min newHeight (maxHeight c)).

Definition handleScroll (c : Config) (h : Host) (st : State)
    : State * list Z :=
  if negb (hasStartedExpanding st) then (st, []) else
  match stickyElementRef h with
  | None => (st, [])
  | Some stickyEl =>
    match containerRef h with
    | None => (st, [])
    | Some container =>
      let containerRect := getBoundingClientRect container in
      let stickyElRect := getBoundingClientRect stickyEl in
      (st, [finalHeight c (window h) containerRect stickyElRect st])
    end
  end.

Definition handleResize (c : Config) (h : Host) (st : State)
    : State * list Z :=
  if negb (hasStartedExpanding st) then (st, []) else
  match stickyElementRef h with
  | None => (st, [])
  | Some stickyEl =>
    let '(newHeight, ws) := updateHeightToFitViewport c (window h) stickyEl in
    ({| hasStartedExpanding := hasStartedExpanding st;
        expansionStartScrollY := scrollY (window h);
        expansionStartHeight := newHeight |}, ws)
  end.

(** One entry of [entries.forEach] in [observerCallback].  The accumulator
    carries the closure state, the heights written so far and whether the
    observer still observes the sticky element ([unobserve] clears it). *)
Definition onEntry (c : Config) (w : Window)
    (acc : State * list Z * bool) (entry : IntersectionObserverEntry)
    : State * list Z * bool :=
  let '(st, ws, observing) := acc in
  if isIntersecting entry && negb (hasStartedExpanding st) then
    let '(initialHeight, ws1) :=
      updateHeightToFitViewport c w (target entry) in
    ({| hasStartedExpanding := true;
        expansionStartScrollY := scrollY w;
        expansionStartHeight := initialHeight |}, ws ++ ws1, false)
  else acc.

Definition observerCallback (c : Config) (w : Window)
    (entries : list IntersectionObserverEntry) (st : State) (observing : bool)
    : State * list Z * bool :=
  fold_left (onEntry c w) entries (st, [], observing).

(** The closure of one call of the composable: the state variables, the two
    throttled functions (created once, outside [watchEffect]), and what is
    currently subscribed. *)
Record Engine := {
  state : State;
  throttledHandleScroll : Throttle;
  throttledHandleResize : Throttle;
  scrollListener : bool;
  resizeListener : bool;
  observing : bool
}.

Definition start (c : Config) : Engine :=
  {| state := init c;
     throttledHandleScroll := idle;
     throttledHandleResize := idle;
     scrollListener := false;
     resizeListener := false;
     observing := false |}.

Inductive Event :=
| EffectRun      (* the body of [watchEffect] runs *)
| Cleanup        (* the callback given to [onCleanup] runs *)
| Intersection (entries : list IntersectionObserverEntry)
| Scroll         (* a 'scroll' event on [window] *)
| Resize         (* a 'resize' event on [window] *)
| ScrollTimer    (* the timer of [throttledHandleScroll] expires *)
| ResizeTimer.   (* the timer of [throttledHandleResize] expires *)

Definition step (c : Config) (h : Host) (ev : Event) (e : Engine)
    : Engine * list Z :=
  match ev with
  | EffectRun =>
    match stickyElementRef h, containerRef h with
    | Some _, Some _ =>
      ({| state := state e;
          throttledHandleScroll := throttledHandleScroll e;
          throttledHandleResize := throttledHandleResize e;
          scrollListener := true;
          resizeListener := true;
          observing := true |}, [])
    | _, _ => (e, [])
    end
  | Cleanup =>
    ({| state := state e;
        throttledHandleScroll := throttledHandleScroll e;
        throttledHandleResize := throttledHandleResize e;
        scrollListener := false;
        resizeListener := false;
        observing := false |}, [])
  | Intersection entries =>
    if observing e then
      let '(st, ws, obs) :=
        observerCallback c (window h) entries (state e) true in
      ({| state := st;
          throttledHandleScroll := throttledHandleScroll e;
          throttledHandleResize := throttledHandleResize e;
          scrollListener := scrollListener e;
          resizeListener := resizeListener e;
          observing := obs |}, ws)
    else (e, [])
  | Scroll =>
    if scrollListener e then
      let '(t, fire) := throttle_call (throttledHandleScroll e) in
      let '(st, ws) :=
        if fire then handleScroll c h (state e) else (state e, []) in
      ({| state := st;
          throttledHandleScroll := t;
          throttledHandleResize := throttledHandleResize e;
          scrollListener := scrollListener e;
          resizeListener := resizeListener e;
          observing := observing e |}, ws)
    else (e, [])
  | Resize =>
    if resizeListener e then
      let '(t, fire) := throttle_call (throttledHandleResize e) in
      let '(st, ws) :=
        if fire then handleResize c h (state e) else (state e, []) in
      ({| state := st;
          throttledHandleScroll := throttledHandleScroll e;
          throttledHandleResize := t;
          scrollListener := scrollListener e;
          resizeListener := resizeListener e;
          observing := observing e |}, ws)
    else (e, [])
  | ScrollTimer =>
    let '(t, fire) := throttle_expire (throttledHandleScroll e) in
    let '(st, ws) :=
      if fire then handleScroll c h (state e) else (state e, []) in
    ({| state := st;
        throttledHandleScroll := t;
        throttledHandleResize := throttledHandleResize e;
        scrollListener := scrollListener e;
        resizeListener := resizeListener e;
        observing := observing e |}, ws)
  | ResizeTimer =>
    let '(t, fire) := throttle_expire (throttledHandleResize e) in
    let '(st, ws) :=
      if fire then handleResize c h (state e) else (state e, []) in
    ({| state := st;
        throttledHandleScroll := throttledHandleScroll e;
        throttledHandleResize := t;
        scrollListener := scrollListener e;
        resizeListener := resizeListener e;
        observing := observing e |}, ws)
  end.

(** A trace pairs each event with the layout the host shows when it is
    delivered; the heights written are collected in order. *)
Fixpoint run (c : Config) (trace : list (Host * Event)) (e : Engine)
    : Engine * list Z :=
  match trace with
  | [] => (e, [])
  | (h, ev) :: rest =>
    let '(e1, ws1) := step c h ev e in
    let '(e2, ws2) := run c rest e1 in
    (e2, ws1 ++ ws2)
  end.

(** [N] deliveries of the observer callback, each with the window it reads
    and its entries. *)
Fixpoint deliver (c : Config)
    (ns : list (Window * list IntersectionObserverEntry)) (st : State)
    : State * list Z :=
  match ns with
  | [] => (st, [])
  | (w, entries) :: rest =>
    let '(st1, ws1, _) := observerCallback c w entries st true in
    let '(st2, ws2) := deliver c rest st1 in
    (st2, ws1 ++ ws2)
  end.

End Refined.

(** ** part_000: the middle variant *)

Module Middle.

Record State := {
  hasStartedExpanding : bool;
  expansionStartScrollY : Z
}.

Definition init : State :=
  {| hasStartedExpanding := false; expansionStartScrollY := 0 |}.

Definition scrollDrivenHeight (c : Config) (w : Window) (st : State) : Z :=
  let scrollDelta := scrollY w - expansionStartScrollY st in
  minHeight c + Z.max 0 scrollDelta.

Definition viewportLimitedHeight (c : Config) (w : Window)
    (stickyElRect : DOMRect) : Z :=
  innerHeight w - top stickyElRect - stickyPadding c.

Definition potentialHeight (c : Config) (w : Window) (stickyElRect : DOMRect)
    (st : State) : Z :=
  Z.min (scrollDrivenHeight c w st) (viewportLimitedHeight c w stickyElRect).

Definition currentMaxHeight (c : Config) (potential : Z) : Z :=
  Z.min potential (maxHeight c).

Definition isCollapsing (c : Config) (containerBottom cmh : Z) : bool :=
  containerBottom <? cmh + stickyTriggerOffset c.

Definition distancePastEnd (c : Config) (containerBottom cmh : Z) : Z :=
  cmh + stickyTriggerOffset c - containerBottom - stickyPadding c.

Definition collapsedHeight (c : Config) (containerBottom cmh : Z) : Z :=
  cmh - distancePastEnd c containerBottom cmh.

Definition rawHeight (c : Config) (containerBottom potential : Z) : Z :=
  let cmh := currentMaxHeight c potential in
  if isCollapsing c containerBottom cmh
  then collapsedHeight c containerBottom cmh
  else potential.

Definition finalHeight (c : Config) (w : Window)
    (containerRect stickyElRect : DOMRect) (st : State) : Z :=
  let newHeight :=
    rawHeight c (bottom containerRect) (potentialHeight c w stickyElRect st) in
  Z.max (minHeight c) (Z.min newHeight (maxHeight c)).

Definition handleScroll (c : Config) (h : Host) (st : State)
    : State * list Z :=
  if negb (hasStartedExpanding st) then (st, []) else
  match stickyElementRef h with
  | None => (st, [])
  | Some stickyEl =>
    match containerRef h with
    | None => (st, [])
    | Some container =>
      let containerRect := getBoundingClientRect container in
      let stickyElRect := getBoundingClientRect stickyEl in
      (st, [finalHeight c (window h) containerRect stickyElRect st])
    end
  end.

Definition onEntry (w : Window) (acc : State * bool)
    (entry : IntersectionObserverEntry) : State * bool :=
  let '(st, observing) := acc in
  if isIntersecting entry && negb (hasStartedExpanding st) then
    ({| hasStartedExpanding := true;
        expansionStartScrollY := scrollY w |}, false)
  else acc.

Definition observerCallback (w : Window)
    (entries : list IntersectionObserverEntry) (st : State) (observing : bool)
    : State * bool :=
  fold_left (onEntry w) entries (st, observing).

Record Engine := {
  state : State;
  scrollListener : bool;
  observing : bool
}.

Definition start : Engine :=
  {| state := init; scrollListener := false; observing := false |}.

Inductive Event :=
| EffectRun
| Cleanup
| Intersection (entries : list IntersectionObserverEntry)
| Scroll.

Definition step (c : Config) (h : Host) (ev : Event) (e : Engine)
    : Engine * list Z :=
  match ev with
  | EffectRun =>
    match stickyElementRef h, containerRef h with
    | Some _, Some _ =>
      ({| state := state e; scrollListener := true; observing := true |}, [])
    | _, _ => (e, [])
    end
  | Cleanup =>
    ({| state := state e; scrollListener := false; observing := false |}, [])
  | Intersection entries =>
    if observing e then
      let '(st, obs) := observerCallback (window h) entries (state e) true in
      ({| state := st; scrollListener := scrollListener e;
          observing := obs |}, [])
    else (e, [])
  | Scroll =>
    if scrollListener e then
      let '(st, ws) := handleScroll c h (state e) in
      ({| state := st; scrollListener := scrollListener e;
          observing := observing e |}, ws)
    else (e, [])
  end.

Fixpoint deliver (ns : list (Window * list IntersectionObserverEntry))
    (st : State) : State :=
  match ns with
  | [] => st
  | (w, entries) :: rest =>
    deliver rest (fst (observerCallback w entries st true))
  end.

End Middle.

(** ** src/composables/useStickyAnimation.ts: the document-offset variant *)

Module StickyBox.

Record StickyBoxOptions := {
  opt_minHeight : option Z;
  opt_maxHeight : option Z;
  opt_headerHeight : option Z;
  opt_topOffsetPadding : option Z;
  opt_bottomOffset : option Z
}.

Record Config := {
  minHeight : Z;
  maxHeight : Z;
  headerHeight : Z;
  topOffsetPadding : Z;
  bottomOffset : Z
}.

Definition destructure (options : StickyBoxOptions) : Config :=
  {| minHeight := orDefault 640 (opt_minHeight options);
     maxHeight := orDefault 1000 (opt_maxHeight options);
     headerHeight := orDefault 60 (opt_headerHeight options);
     topOffsetPadding := orDefault 20 (opt_topOffsetPadding options);
     bottomOffset := orDefault 20 (opt_bottomOffset options) |}.

Definition topOffset (c : Config) : Z := headerHeight c + topOffsetPadding c.

Record State := {
  isExpansionTriggered : bool;
  expansionStartScrollY : Z
}.

Definition init : State :=
  {| isExpansionTriggered := false; expansionStartScrollY := 0 |}.

Definition stickyStartPoint (c : Config) (parentContainer : HTMLElement) : Z :=
  offsetTop parentContainer - topOffset c.

Definition finalStickyHeight (c : Config) (parentContainer : HTMLElement)
    (st : State) : Z :=
  let finalScrollDelta :=
    stickyStartPoint c parentContainer - expansionStartScrollY st in
  let stickyHeightWhenLocked :=
    minHeight c + Z.max 0 (finalScrollDelta - bottomOffset c) in
  Z.min stickyHeightWhenLocked (maxHeight c).

Definition stickyEndPoint (c : Config) (parentContainer : HTMLElement)
    (st : State) : Z :=
  offsetTop parentContainer + offsetHeight parentContainer
  - finalStickyHeight c parentContainer st - topOffset c.

(** [newHeight] after the three-way branch, before the clamp. *)
Definition newHeight (c : Config) (w : Window) (parentContainer : HTMLElement)
    (st : State) : Z :=
  let y := scrollY w in
  if y <? stickyStartPoint c parentContainer then
    let scrollDelta := y - expansionStartScrollY st in
    minHeight c + Z.max 0 (scrollDelta - bottomOffset c)
  else if (stickyStartPoint c parentContainer <=? y)
          && (y <? stickyEndPoint c parentContainer st) then
    finalStickyHeight c parentContainer st
  else
    let distancePastEnd := y - stickyEndPoint c parentContainer st in
    finalStickyHeight c parentContainer st - distancePastEnd.

Definition clampedHeight (c : Config) (w : Window)
    (parentContainer : HTMLElement) (st : State) : Z :=
  Z.max (minHeight c) (Z.min (newHeight c w parentContainer st) (maxHeight c)).

(** [stickyBoxRef] is [stickyElementRef] of the host, [parentContainerRef]
    is [containerRef]. *)
Definition handleScroll (c : Config) (h : Host) (st : State)
    : State * list Z :=
  if negb (isExpansionTriggered st) then (st, []) else
  match stickyElementRef h with
  | None => (st, [])
  | Some stickyBox =>
    match containerRef h with
    | None => (st, [])
    | Some parentContainer =>
      (st, [clampedHeight c (window h) parentContainer st])
    end
  end.

Definition onEntry (w : Window) (acc : State * bool)
    (entry : IntersectionObserverEntry) : State * bool :=
  let '(st, observing) := acc in
  if isIntersecting entry && negb (isExpansionTriggered st) then
    ({| isExpansionTriggered := true;
        expansionStartScrollY := scrollY w |}, false)
  else acc.

Definition triggerCallback (w : Window)
    (entries : list IntersectionObserverEntry) (st : State) (observing : bool)
    : State * bool :=
  fold_left (onEntry w) entries (st, observing).

(** [triggerObserver] is [None] for [null]; [Some b] is an observer that
    observes the sticky box when [b] holds. *)
Record Engine := {
  state : State;
  triggerObserver : option bool;
  scrollListener : bool
}.

Definition start : Engine :=
  {| state := init; triggerObserver := None; scrollListener := false |}.

Inductive Event :=
| Mounted
| Unmounted
| Intersection (entries : list IntersectionObserverEntry)
| Scroll.

(** [client] is [process.client]. *)
Definition step (client : bool) (c : Config) (h : Host) (ev : Event)
    (e : Engine) : Engine * list Z :=
  match ev with
  | Mounted =>
    if negb client then (e, []) else
    match stickyElementRef h, containerRef h with
    | Some _, Some _ =>
      ({| state := state e; triggerObserver := Some true;
          scrollListener := true |}, [])
    | _, _ => (e, [])
    end
  | Unmounted =>
    if client then
      ({| state := state e;
          triggerObserver :=
            match triggerObserver e with
            | Some _ => Some false
            | None => None
            end;
          scrollListener := false |}, [])
    else (e, [])
  | Intersection entries =>
    match triggerObserver e with
    | Some true =>
      let '(st, obs) := triggerCallback (window h) entries (state e) true in
      ({| state := st; triggerObserver := Some obs;
          scrollListener := scrollListener e |}, [])
    | _ => (e, [])
    end
  | Scroll =>
    if scrollListener e then
      let '(st, ws) := handleScroll c h (state e) in
      ({| state := st; triggerObserver := triggerObserver e;
          scrollListener := scrollListener e |}, ws)
    else (e, [])
  end.

Fixpoint deliver (ns : list (Window * list IntersectionObserverEntry))
    (st : State) : State :=
  match ns with
  | [] => st
  | (w, entries) :: rest =>
    deliver rest (fst (triggerCallback w entries st true))
  end.

End StickyBox.

(** ** Sample layouts and traces *)

(** A layout used to run the handlers on concrete numbers: a 1000 px
    viewport scrolled to 1200, the sticky element 80 px below its top, the
    container ending 950 px below it. *)
Definition sampleElement : HTMLElement :=
  {| getBoundingClientRect := {| top := 80; bottom := 980 |};
     offsetTop := 400; offsetHeight := 900 |}.

Definition sampleContainer : HTMLElement :=
  {| getBoundingClientRect := {| top := -600; bottom := 950 |};
     offsetTop := 300; offsetHeight := 1550 |}.

Definition sampleHost : Host :=
  {| window := {| scrollY := 1200; innerHeight := 1000 |};
     stickyElementRef := Some sampleElement;
     containerRef := Some sampleContainer |}.

Definition firedRefined : Refined.State :=
  {| Refined.hasStartedExpanding := true;
     Refined.expansionStartScrollY := 500;
     Refined.expansionStartHeight := 640 |}.

Definition firedMiddle : Middle.State :=
  {| Middle.hasStartedExpanding := true;
     Middle.expansionStartScrollY := 500 |}.

Definition firedStickyBox : StickyBox.State :=
  {| StickyBox.isExpansionTriggered := true;
     StickyBox.expansionStartScrollY := 500 |}.

Definition unmountedContainer : Host :=
  {| window := window sampleHost;
     stickyElementRef := Some sampleElement;
     containerRef := None |}.

Definition stickyBoxDefaults : StickyBox.Config :=
  StickyBox.destructure
    {| StickyBox.opt_minHeight := None;
       StickyBox.opt_maxHeight := None;
       StickyBox.opt_headerHeight := None;
       StickyBox.opt_topOffsetPadding := None;
       StickyBox.opt_bottomOffset := None |}.

(** The height that fits between the element's top and the bottom of the
    viewport, clamped. *)
Definition fitHeight (c : Config) (w : Window) (element : HTMLElement) : Z :=
  clamp (innerHeight w - top (getBoundingClientRect element) - stickyPadding c)
        (minHeight c) (maxHeight c).

(** The sample host with the container's bottom edge moved. *)
Definition hostWithContainerBottom (b : Z) : Host :=
  {| window := window sampleHost;
     stickyElementRef := Some sampleElement;
     containerRef :=
       Some {| getBoundingClientRect := {| top := -600; bottom := b |};
               offsetTop := 300; offsetHeight := 1550 |} |}.

Definition intersectingEntry : IntersectionObserverEntry :=
  {| isIntersecting := true; target := sampleElement |}.

Definition hostScrolledTo (y : Z) : Host :=
  {| window := {| scrollY := y; innerHeight := 1000 |};
     stickyElementRef := Some sampleElement;
     containerRef := Some sampleContainer |}.

(** The events that reach the composable through a subscription. *)
Definition isNotification (ev : Refined.Event) : bool :=
  match ev with
  | Refined.Intersection _ | Refined.Scroll | Refined.Resize => true
  | _ => false
  end.

Definition detached (e : Refined.Engine) : Prop :=
  Refined.scrollListener e = false
  /\ Refined.resizeListener e = false
  /\ Refined.observing e = false.

(** One attach cycle at the default options: the effect runs, the trigger
    fires at scroll offset 500, a scroll event runs the handler on the
    leading edge, a second scroll event 50 px further arrives inside the
    window and stays pending, then the cleanup runs. *)
Definition cycleWithPendingScroll : list (Host * Refined.Event) :=
  [ (hostScrolledTo 500, Refined.EffectRun);
    (hostScrolledTo 500, Refined.Intersection [intersectingEntry]);
    (hostScrolledTo 600, Refined.Scroll);
    (hostScrolledTo 650, Refined.Scroll);
    (hostScrolledTo 650, Refined.Cleanup) ].

(** The engine of [cycleWithPendingScroll] just before its cleanup. *)
Definition enginePendingScroll : Refined.Engine :=
  fst (Refined.run (destructure noOptions)
         (removelast cycleWithPendingScroll)
         (Refined.start (destructure noOptions))).

(** ** Traces of the unthrottled variants, and helpers to vary one input *)

Fixpoint runMiddle (c : Config) (trace : list (Host * Middle.Event))
    (e : Middle.Engine) : Middle.Engine * list Z :=
  match trace with
  | [] => (e, [])
  | (h, ev) :: rest =>
    let '(e1, ws1) := Middle.step c h ev e in
    let '(e2, ws2) := runMiddle c rest e1 in
    (e2, ws1 ++ ws2)
  end.

Fixpoint runStickyBox (client : bool) (c : StickyBox.Config)
    (trace : list (Host * StickyBox.Event)) (e : StickyBox.Engine)
    : StickyBox.Engine * list Z :=
  match trace with
  | [] => (e, [])
  | (h, ev) :: rest =>
    let '(e1, ws1) := StickyBox.step client c h ev e in
    let '(e2, ws2) := runStickyBox client c rest e1 in
    (e2, ws1 ++ ws2)
  end.

(** The window scrolled to [y], the viewport unchanged. *)
Definition atScrollY (y : Z) (w : Window) : Window :=
  {| scrollY := y; innerHeight := innerHeight w |}.

(** The rectangle with its bottom edge at [b]. *)
Definition withBottom (b : Z) (r : DOMRect) : DOMRect :=
  {| top := top r; bottom := b |}.

(** An intersection notification with at least one intersecting entry. *)
Definition firesRefined (ev : Refined.Event) : bool :=
  match ev with
  | Refined.Intersection entries => existsb isIntersecting entries
  | _ => false
  end.

Definition firesMiddle (ev : Middle.Event) : bool :=
  match ev with
  | Middle.Intersection entries => existsb isIntersecting entries
  | _ => false
  end.

Definition firesStickyBox (ev : StickyBox.Event) : bool :=
  match ev with
  | StickyBox.Intersection entries => existsb isIntersecting entries
  | _ => false
  end.

(** A run of the [watchEffect] body that finds both refs mounted. *)
Definition attaches (p : Host * Refined.Event) : bool :=
  match snd p, stickyElementRef (fst p), containerRef (fst p) with
  | Refined.EffectRun, Some _, Some _ => true
  | _, _, _ => false
  end.

Definition isMiddleNotification (ev : Middle.Event) : bool :=
  match ev with
  | Middle.Intersection _ | Middle.Scroll => true
  | _ => false
  end.

Definition isStickyBoxNotification (ev : StickyBox.Event) : bool :=
  match ev with
  | StickyBox.Intersection _ | StickyBox.Scroll => true
  | _ => false
  end.

Definition within (lo hi v : Z) : Prop := lo <= v <= hi.

(** Two attach cycles of the refined variant at the default options: the
    trigger fires at scroll offset 500 in the first, the effect is cleaned
    up and runs again at scroll offset 900. *)
Definition twoAttachCycles : list (Host * Refined.Event) :=
  [ (hostScrolledTo 500, Refined.EffectRun);
    (hostScrolledTo 500, Refined.Intersection [intersectingEntry]);
    (hostScrolledTo 600, Refined.Cleanup);
    (hostScrolledTo 900, Refined.EffectRun) ].

(** The same two cycles of the middle variant. *)
Definition twoAttachCyclesMiddle : list (Host * Middle.Event) :=
  [ (hostScrolledTo 500, Middle.EffectRun);
    (hostScrolledTo 500, Middle.Intersection [intersectingEntry]);
    (hostScrolledTo 600, Middle.Cleanup);
    (hostScrolledTo 900, Middle.EffectRun) ].

(** A refined state anchored at scroll offset 500 with a start height of
    700, not [minHeight]. *)
Definition firedRefinedFrom700 : Refined.State :=
  {| Refined.hasStartedExpanding := true;
     Refined.expansionStartScrollY := 500;
     Refined.expansionStartHeight := 700 |}.

(** * Properties *)

(** ** The clamp and the scroll handlers *)

Lemma clamp_bounds (x lo hi : Z) :
  lo <= hi -> lo <= Z.max lo (Z.min x hi) <= hi.
Proof. lia. Qed.

(** With ordered bounds the nested [max]/[min] is the usual three-way
    clamp. *)
Lemma clamp_cases (x lo hi : Z) :
  lo <= hi ->
  clamp x lo hi = if x <? lo then lo else if hi <? x then hi else x.
Proof.
  intros Hle. unfold clamp.
  destruct (Z.ltb_spec x lo); [lia|].
  destruct (Z.ltb_spec hi x); lia.
Qed.

Ltac guards :=
  repeat match goal with
  | |- context [negb ?b] => destruct b; simpl
  | |- context [match ?o with Some _ => _ | None => _ end] =>
      destruct o; simpl
  end.

Lemma refined_handleScroll_state (c : Config) (h : Host) (st : Refined.State) :
  fst (Refined.handleScroll c h st) = st.
Proof. unfold Refined.handleScroll. guards; reflexivity. Qed.

Lemma middle_handleScroll_state (c : Config) (h : Host) (st : Middle.State) :
  fst (Middle.handleScroll c h st) = st.
Proof. unfold Middle.handleScroll. guards; reflexivity. Qed.

Lemma stickyBox_handleScroll_state (c : StickyBox.Config) (h : Host)
    (st : StickyBox.State) :
  fst (StickyBox.handleScroll c h st) = st.
Proof. unfold StickyBox.handleScroll. guards; reflexivity. Qed.

(** Past the guard each scroll handler writes exactly one height, the
    clamped one. *)
Lemma refined_handleScroll_fired (c : Config) (h : Host) (st : Refined.State)
    (stickyEl container : HTMLElement) :
  Refined.hasStartedExpanding st = true ->
  stickyElementRef h = Some stickyEl ->
  containerRef h = Some container ->
  Refined.handleScroll c h st =
    (st, [Refined.finalHeight c (window h) (getBoundingClientRect container)
            (getBoundingClientRect stickyEl) st]).
Proof.
  intros Hf Hs Hc. unfold Refined.handleScroll.
  rewrite Hf, Hs, Hc. reflexivity.
Qed.

Lemma middle_handleScroll_fired (c : Config) (h : Host) (st : Middle.State)
    (stickyEl container : HTMLElement) :
  Middle.hasStartedExpanding st = true ->
  stickyElementRef h = Some stickyEl ->
  containerRef h = Some container ->
  Middle.handleScroll c h st =
    (st, [Middle.finalHeight c (window h) (getBoundingClientRect container)
            (getBoundingClientRect stickyEl) st]).
Proof.
  intros Hf Hs Hc. unfold Middle.handleScroll.
  rewrite Hf, Hs, Hc. reflexivity.
Qed.

Lemma stickyBox_handleScroll_fired (c : StickyBox.Config) (h : Host)
    (st : StickyBox.State) (stickyBox parentContainer : HTMLElement) :
  StickyBox.isExpansionTriggered st = true ->
  stickyElementRef h = Some stickyBox ->
  containerRef h = Some parentContainer ->
  StickyBox.handleScroll c h st =
    (st, [StickyBox.clampedHeight c (window h) parentContainer st]).
Proof.
  intros Hf Hs Hc. unfold StickyBox.handleScroll.
  rewrite Hf, Hs, Hc. reflexivity.
Qed.

(** C1. After the trigger has fired, with the element and the container
    mounted and [minHeight <= maxHeight], the scroll handler of each of the
    three variants writes one height [v] with
    [minHeight <= v <= maxHeight], whatever the layout and the scroll
    offset are. *)
Theorem handleScroll_clamp_invariant
    (c : Config) (cb : StickyBox.Config) (h : Host)
    (stickyEl container : HTMLElement)
    (sr : Refined.State) (sm : Middle.State) (sb : StickyBox.State) :
  stickyElementRef h = Some stickyEl ->
  containerRef h = Some container ->
  Refined.hasStartedExpanding sr = true ->
  Middle.hasStartedExpanding sm = true ->
  StickyBox.isExpansionTriggered sb = true ->
  minHeight c <= maxHeight c ->
  StickyBox.minHeight cb <= StickyBox.maxHeight cb ->
  (exists v, Refined.handleScroll c h sr = (sr, [v])
             /\ minHeight c <= v <= maxHeight c)
  /\ (exists v, Middle.handleScroll c h sm = (sm, [v])
                /\ minHeight c <= v <= maxHeight c)
  /\ (exists v, StickyBox.handleScroll cb h sb = (sb, [v])
                /\ StickyBox.minHeight cb <= v <= StickyBox.maxHeight cb).
Proof.
  intros Hs Hc Hr Hm Hb Hle Hleb.
  split; [|split].
  - eexists. split.
    + apply (refined_handleScroll_fired c h sr stickyEl container); assumption.
    + apply clamp_bounds, Hle.
  - eexists. split.
    + apply (middle_handleScroll_fired c h sm stickyEl container); assumption.
    + apply clamp_bounds, Hle.
  - eexists. split.
    + apply (stickyBox_handleScroll_fired cb h sb stickyEl container);
        assumption.
    + apply clamp_bounds, Hleb.
Qed.

Lemma handleScroll_clamp_invariant_witness :
  (exists v, Refined.handleScroll (destructure noOptions) sampleHost
               firedRefined = (firedRefined, [v])
             /\ 640 <= v <= 1000)
  /\ (exists v, Middle.handleScroll (destructure noOptions) sampleHost
                  firedMiddle = (firedMiddle, [v])
                /\ 640 <= v <= 1000)
  /\ (exists v, StickyBox.handleScroll
                  (StickyBox.destructure
                     {| StickyBox.opt_minHeight := None;
                        StickyBox.opt_maxHeight := None;
                        StickyBox.opt_headerHeight := None;
                        StickyBox.opt_topOffsetPadding := None;
                        StickyBox.opt_bottomOffset := None |})
                  sampleHost firedStickyBox = (firedStickyBox, [v])
                /\ 640 <= v <= 1000).
Proof.
  refine (handleScroll_clamp_invariant (destructure noOptions)
            (StickyBox.destructure _) sampleHost sampleElement sampleContainer
            firedRefined firedMiddle firedStickyBox _ _ _ _ _ _ _);
    try reflexivity; simpl; lia.
Defined.

(** C5. While the trigger has not fired, or the element ref is null, or the
    container ref is null, the scroll handler of each variant writes nothing
    and returns the closure state it was given: the flag, the recorded
    scroll offset and (refined variant) the recorded height are unchanged.
    The handler is a total function, no case raises. *)
Theorem handleScroll_guard_noop
    (c : Config) (cb : StickyBox.Config) (h : Host)
    (sr : Refined.State) (sm : Middle.State) (sb : StickyBox.State) :
  (Refined.hasStartedExpanding sr = false
   \/ stickyElementRef h = None \/ containerRef h = None ->
   Refined.handleScroll c h sr = (sr, []))
  /\ (Middle.hasStartedExpanding sm = false
      \/ stickyElementRef h = None \/ containerRef h = None ->
      Middle.handleScroll c h sm = (sm, []))
  /\ (StickyBox.isExpansionTriggered sb = false
      \/ stickyElementRef h = None \/ containerRef h = None ->
      StickyBox.handleScroll cb h sb = (sb, [])).
Proof.
  unfold Refined.handleScroll, Middle.handleScroll, StickyBox.handleScroll.
  repeat split; intros [Hf | [Hs | Hc]];
    try rewrite Hf; try rewrite Hs; try rewrite Hc; simpl; guards;
    reflexivity.
Qed.

Lemma handleScroll_guard_noop_witness :
  Refined.handleScroll (destructure noOptions) sampleHost
    (Refined.init (destructure noOptions))
  = (Refined.init (destructure noOptions), [])
  /\ Middle.handleScroll (destructure noOptions) unmountedContainer
       firedMiddle = (firedMiddle, [])
  /\ StickyBox.handleScroll stickyBoxDefaults unmountedContainer
       firedStickyBox = (firedStickyBox, []).
Proof.
  split; [|split].
  - apply (proj1 (handleScroll_guard_noop (destructure noOptions)
                    stickyBoxDefaults sampleHost
                    (Refined.init (destructure noOptions))
                    firedMiddle firedStickyBox)).
    left. reflexivity.
  - apply (proj1 (proj2 (handleScroll_guard_noop (destructure noOptions)
                    stickyBoxDefaults unmountedContainer
                    firedRefined firedMiddle firedStickyBox))).
    right. right. reflexivity.
  - apply (proj2 (proj2 (handleScroll_guard_noop (destructure noOptions)
                    stickyBoxDefaults unmountedContainer
                    firedRefined firedMiddle firedStickyBox))).
    right. right. reflexivity.
Defined.

(** ** The scroll handler does not touch the closure state *)

Lemma refined_step_keeps_state (c : Config) (h : Host) (ev : Refined.Event)
    (e : Refined.Engine) :
  match ev with
  | Refined.Intersection _ | Refined.Resize | Refined.ResizeTimer => True
  | _ => Refined.state (fst (Refined.step c h ev e)) = Refined.state e
  end.
Proof.
  destruct ev; simpl; trivial.
  - destruct (stickyElementRef h), (containerRef h); reflexivity.
  - destruct (Refined.scrollListener e); [|reflexivity].
    destruct (throttle_call (Refined.throttledHandleScroll e)) as [t [|]].
    + pose proof (refined_handleScroll_state c h (Refined.state e)) as Hst.
      destruct (Refined.handleScroll c h (Refined.state e)); exact Hst.
    + reflexivity.
  - destruct (throttle_expire (Refined.throttledHandleScroll e)) as [t [|]].
    + pose proof (refined_handleScroll_state c h (Refined.state e)) as Hst.
      destruct (Refined.handleScroll c h (Refined.state e)); exact Hst.
    + reflexivity.
Qed.

Lemma middle_step_keeps_state (c : Config) (h : Host) (ev : Middle.Event)
    (e : Middle.Engine) :
  match ev with
  | Middle.Intersection _ => True
  | _ => Middle.state (fst (Middle.step c h ev e)) = Middle.state e
  end.
Proof.
  destruct ev; simpl; trivial.
  - destruct (stickyElementRef h), (containerRef h); reflexivity.
  - destruct (Middle.scrollListener e); [|reflexivity].
    pose proof (middle_handleScroll_state c h (Middle.state e)) as Hst.
    destruct (Middle.handleScroll c h (Middle.state e)); exact Hst.
Qed.

Lemma stickyBox_step_keeps_state (client : bool) (c : StickyBox.Config)
    (h : Host) (ev : StickyBox.Event) (e : StickyBox.Engine) :
  match ev with
  | StickyBox.Intersection _ => True
  | _ => StickyBox.state (fst (StickyBox.step client c h ev e))
         = StickyBox.state e
  end.
Proof.
  destruct ev; simpl; trivial.
  - destruct client; simpl; [|reflexivity].
    destruct (stickyElementRef h), (containerRef h); reflexivity.
  - destruct client; reflexivity.
  - destruct (StickyBox.scrollListener e); [|reflexivity].
    pose proof (stickyBox_handleScroll_state c h (StickyBox.state e)) as Hst.
    destruct (StickyBox.handleScroll c h (StickyBox.state e)); exact Hst.
Qed.

(** C7. The scroll handler of each variant returns the closure state it was
    given, so a second call on the same scroll offset, layout, configuration
    and state writes the same height as the first and again changes nothing.
    At the level of events, the closure state can change only on an
    intersection notification and, in the refined variant, on a resize
    (leading or trailing call of the throttled resize handler). *)
Theorem handleScroll_idempotent :
  (forall c h st,
     fst (Refined.handleScroll c h st) = st
     /\ Refined.handleScroll c h (fst (Refined.handleScroll c h st))
        = Refined.handleScroll c h st)
  /\ (forall c h st,
        fst (Middle.handleScroll c h st) = st
        /\ Middle.handleScroll c h (fst (Middle.handleScroll c h st))
           = Middle.handleScroll c h st)
  /\ (forall c h st,
        fst (StickyBox.handleScroll c h st) = st
        /\ StickyBox.handleScroll c h (fst (StickyBox.handleScroll c h st))
           = StickyBox.handleScroll c h st)
  /\ (forall c h ev e,
        match ev with
        | Refined.Intersection _ | Refined.Resize | Refined.ResizeTimer => True
        | _ => Refined.state (fst (Refined.step c h ev e)) = Refined.state e
        end)
  /\ (forall c h ev e,
        match ev with
        | Middle.Intersection _ => True
        | _ => Middle.state (fst (Middle.step c h ev e)) = Middle.state e
        end)
  /\ (forall client c h ev e,
        match ev with
        | StickyBox.Intersection _ => True
        | _ => StickyBox.state (fst (StickyBox.step client c h ev e))
               = StickyBox.state e
        end).
Proof.
  repeat split.
  - apply refined_handleScroll_state.
  - rewrite refined_handleScroll_state. reflexivity.
  - apply middle_handleScroll_state.
  - rewrite middle_handleScroll_state. reflexivity.
  - apply stickyBox_handleScroll_state.
  - rewrite stickyBox_handleScroll_state. reflexivity.
  - apply refined_step_keeps_state.
  - apply middle_step_keeps_state.
  - apply stickyBox_step_keeps_state.
Qed.

(** ** Resize re-anchoring (refined variant) *)

Lemma updateHeightToFitViewport_fit (c : Config) (w : Window)
    (element : HTMLElement) :
  Refined.updateHeightToFitViewport c w element
  = (fitHeight c w element, [fitHeight c w element]).
Proof. reflexivity. Qed.

Lemma refined_handleResize_fired (c : Config) (h : Host) (st : Refined.State)
    (stickyEl : HTMLElement) :
  Refined.hasStartedExpanding st = true ->
  stickyElementRef h = Some stickyEl ->
  Refined.handleResize c h st =
    ({| Refined.hasStartedExpanding := true;
        Refined.expansionStartScrollY := scrollY (window h);
        Refined.expansionStartHeight := fitHeight c (window h) stickyEl |},
     [fitHeight c (window h) stickyEl]).
Proof.
  intros Hf Hs. unfold Refined.handleResize.
  rewrite Hf, Hs. reflexivity.
Qed.

(** C8. In the refined variant, a resize handled after the trigger has fired
    with the element mounted writes
    [clamp (innerHeight - top - stickyPadding) minHeight maxHeight] and
    leaves the state with [expansionStartHeight] equal to the height
    written and [expansionStartScrollY] equal to the current scroll
    offset. *)
Theorem handleResize_writes_fit_and_reanchors
    (c : Config) (h : Host) (st : Refined.State) (stickyEl : HTMLElement) :
  Refined.hasStartedExpanding st = true ->
  stickyElementRef h = Some stickyEl ->
  let v := clamp (innerHeight (window h)
                  - top (getBoundingClientRect stickyEl) - stickyPadding c)
                 (minHeight c) (maxHeight c) in
  snd (Refined.handleResize c h st) = [v]
  /\ Refined.expansionStartHeight (fst (Refined.handleResize c h st)) = v
  /\ Refined.expansionStartScrollY (fst (Refined.handleResize c h st))
     = scrollY (window h)
  /\ Refined.hasStartedExpanding (fst (Refined.handleResize c h st)) = true.
Proof.
  intros Hf Hs v.
  rewrite (refined_handleResize_fired c h st stickyEl Hf Hs).
  repeat split.
Qed.

Lemma handleResize_writes_fit_and_reanchors_witness :
  snd (Refined.handleResize (destructure noOptions) sampleHost firedRefined)
  = [900]
  /\ Refined.expansionStartHeight
       (fst (Refined.handleResize (destructure noOptions) sampleHost
               firedRefined)) = 900
  /\ Refined.expansionStartScrollY
       (fst (Refined.handleResize (destructure noOptions) sampleHost
               firedRefined)) = 1200
  /\ Refined.hasStartedExpanding
       (fst (Refined.handleResize (destructure noOptions) sampleHost
               firedRefined)) = true.
Proof.
  exact (handleResize_writes_fit_and_reanchors (destructure noOptions)
           sampleHost firedRefined sampleElement eq_refl eq_refl).
Defined.

(** C9. The guard of the refined resize handler looks at the trigger flag
    and the element ref only: with the container ref null it still writes
    the fit height and re-anchors both recorded values, while the scroll
    handler on the same host writes nothing. *)
Theorem handleResize_ignores_container
    (c : Config) (h : Host) (st : Refined.State) (stickyEl : HTMLElement) :
  Refined.hasStartedExpanding st = true ->
  stickyElementRef h = Some stickyEl ->
  containerRef h = None ->
  Refined.handleResize c h st =
    ({| Refined.hasStartedExpanding := true;
        Refined.expansionStartScrollY := scrollY (window h);
        Refined.expansionStartHeight := fitHeight c (window h) stickyEl |},
     [fitHeight c (window h) stickyEl])
  /\ Refined.handleScroll c h st = (st, []).
Proof.
  intros Hf Hs Hc. split.
  - apply refined_handleResize_fired; assumption.
  - unfold Refined.handleScroll. rewrite Hf, Hs, Hc. reflexivity.
Qed.

Lemma handleResize_ignores_container_witness :
  Refined.handleResize (destructure noOptions) unmountedContainer firedRefined
  = ({| Refined.hasStartedExpanding := true;
        Refined.expansionStartScrollY := 1200;
        Refined.expansionStartHeight := 900 |}, [900])
  /\ Refined.handleScroll (destructure noOptions) unmountedContainer
       firedRefined = (firedRefined, []).
Proof.
  exact (handleResize_ignores_container (destructure noOptions)
           unmountedContainer firedRefined sampleElement
           eq_refl eq_refl eq_refl).
Defined.

(** ** The collapse branch *)

(** In exact arithmetic the value of the collapse branch does not depend on
    [currentMaxHeight]. *)
Lemma refined_collapsedHeight_eq (c : Config) (containerBottom cmh : Z) :
  Refined.collapsedHeight c containerBottom cmh
  = containerBottom - stickyTriggerOffset c.
Proof. unfold Refined.collapsedHeight, Refined.distancePastEnd. lia. Qed.

Lemma middle_collapsedHeight_eq (c : Config) (containerBottom cmh : Z) :
  Middle.collapsedHeight c containerBottom cmh
  = containerBottom - stickyTriggerOffset c + stickyPadding c.
Proof. unfold Middle.collapsedHeight, Middle.distancePastEnd. lia. Qed.

(** Refined variant: with [potentialHeight = currentMaxHeight] the height
    before the clamp is [min (containerBottom - triggerOffset) potential]:
    both branches give [currentMaxHeight] at the boundary, and the value
    follows [containerBottom] without a jump. *)
Lemma refined_rawHeight_continuous (c : Config) (potential : Z) :
  potential <= maxHeight c ->
  let cmh := Refined.currentMaxHeight c potential in
  let boundary := cmh + stickyTriggerOffset c in
  cmh = potential
  /\ Refined.collapsedHeight c boundary cmh = cmh
  /\ Refined.rawHeight c boundary potential = cmh
  /\ (forall cb, Refined.rawHeight c cb potential
                 = Z.min (cb - stickyTriggerOffset c) potential)
  /\ (forall cb1 cb2, cb1 <= cb2 ->
        Refined.rawHeight c cb1 potential <= Refined.rawHeight c cb2 potential)
  /\ (forall cb1 cb2,
        Z.abs (Refined.rawHeight c cb1 potential
               - Refined.rawHeight c cb2 potential) <= Z.abs (cb1 - cb2)).
Proof.
  intros Hle cmh boundary.
  assert (Hcmh : cmh = potential)
    by (unfold cmh, Refined.currentMaxHeight; lia).
  assert (Hraw : forall cb, Refined.rawHeight c cb potential
                            = Z.min (cb - stickyTriggerOffset c) potential).
  { intros cb. unfold Refined.rawHeight, Refined.isCollapsing.
    fold cmh. rewrite refined_collapsedHeight_eq, Hcmh.
    destruct (Z.ltb_spec cb (potential + stickyTriggerOffset c)); lia. }
  repeat split.
  - exact Hcmh.
  - rewrite refined_collapsedHeight_eq. unfold boundary. lia.
  - rewrite Hraw. unfold boundary. lia.
  - exact Hraw.
  - intros cb1 cb2 H12. rewrite !Hraw. lia.
  - intros cb1 cb2. rewrite !Hraw. lia.
Qed.

(** Middle variant: at the boundary the collapse branch gives
    [currentMaxHeight + stickyPadding]. *)
Lemma middle_collapsedHeight_boundary (c : Config) (cmh : Z) :
  Middle.collapsedHeight c (cmh + stickyTriggerOffset c) cmh
  = cmh + stickyPadding c.
Proof. rewrite middle_collapsedHeight_eq. lia. Qed.

(** C3, middle variant at the default options with
    [potentialHeight = currentMaxHeight = 900] and [triggerOffset = 80].
    At [containerBottom = 980] the collapse branch evaluates to 920, not to
    900; the handler writes 900 at 980 and 919 at 979, so the height jumps
    up by 19 when the container's bottom edge moves up by 1. *)
Theorem middle_collapse_boundary_jump :
  let c := destructure noOptions in
  let potential :=
    Middle.potentialHeight c (window sampleHost)
      (getBoundingClientRect sampleElement) firedMiddle in
  potential = 900
  /\ Middle.currentMaxHeight c potential = 900
  /\ stickyTriggerOffset c = 80
  /\ Middle.collapsedHeight c 980 900 = 920
  /\ Middle.rawHeight c 980 potential = 900
  /\ Middle.rawHeight c 979 potential = 919
  /\ Middle.handleScroll c (hostWithContainerBottom 980) firedMiddle
     = (firedMiddle, [900])
  /\ Middle.handleScroll c (hostWithContainerBottom 979) firedMiddle
     = (firedMiddle, [919]).
Proof. vm_compute. repeat split. Qed.

(** Scenario C on the refined variant: whenever the inputs give
    [currentMaxHeight = 900] with a trigger offset of 80, a container bottom
    of 950 and bounds 640 and 1000, the overrun is 30, the height before
    the clamp 870 and the height written 870. *)
Lemma refined_scenario_C (c : Config) (h : Host) (st : Refined.State)
    (stickyEl container : HTMLElement) :
  Refined.hasStartedExpanding st = true ->
  stickyElementRef h = Some stickyEl ->
  containerRef h = Some container ->
  minHeight c = 640 -> maxHeight c = 1000 ->
  stickyTriggerOffset c = 80 ->
  bottom (getBoundingClientRect container) = 950 ->
  let potential :=
    Refined.potentialHeight c (window h) (getBoundingClientRect stickyEl) st in
  Refined.currentMaxHeight c potential = 900 ->
  Refined.isCollapsing c 950 900 = true
  /\ Refined.distancePastEnd c 950 900 = 30
  /\ Refined.rawHeight c 950 potential = 870
  /\ Refined.handleScroll c h st = (st, [870]).
Proof.
  intros Hf Hs Hc Hmin Hmax HT Hb potential Hcmh.
  assert (Hcol : Refined.isCollapsing c 950 900 = true)
    by (unfold Refined.isCollapsing; rewrite HT; reflexivity).
  assert (Hraw : Refined.rawHeight c 950 potential = 870).
  { unfold Refined.rawHeight. rewrite Hcmh, Hcol.
    rewrite refined_collapsedHeight_eq, HT. reflexivity. }
  repeat split.
  - exact Hcol.
  - unfold Refined.distancePastEnd. rewrite HT. reflexivity.
  - exact Hraw.
  - rewrite (refined_handleScroll_fired c h st stickyEl container Hf Hs Hc).
    unfold Refined.finalHeight. fold potential.
    rewrite Hb, Hraw, Hmin, Hmax. reflexivity.
Qed.

(** C4, middle variant at the default options: the inputs give
    [currentMaxHeight = 900], the trigger offset is 80 and the container
    bottom 950, yet [distancePastEnd] is 10 (the padding of 20 is taken off
    the overrun of 30), the height before the clamp is 890 and the handler
    writes 890.  The refined handler writes 870 on the same host. *)
Theorem middle_scenario_C_writes_890 :
  let c := destructure noOptions in
  let potential :=
    Middle.potentialHeight c (window sampleHost)
      (getBoundingClientRect sampleElement) firedMiddle in
  Middle.currentMaxHeight c potential = 900
  /\ stickyTriggerOffset c = 80
  /\ bottom (getBoundingClientRect sampleContainer) = 950
  /\ Middle.isCollapsing c 950 900 = true
  /\ Middle.distancePastEnd c 950 900 = 10
  /\ Middle.rawHeight c 950 potential = 890
  /\ Middle.handleScroll c sampleHost firedMiddle = (firedMiddle, [890])
  /\ Refined.handleScroll c sampleHost firedRefined = (firedRefined, [870]).
Proof. vm_compute. repeat split. Qed.

(** ** Middle against refined *)

(** C10, as stated, fails: the condition is not necessary for the two
    handlers to agree.  At the default options, with the container's bottom
    edge at 100 the collapse condition is true and both write 640; with a
    refined start height of 700 instead of [minHeight] and the bottom edge
    at 2000 both write 900. *)
Lemma handlers_agree_outside_condition :
  let c := destructure noOptions in
  let potential :=
    Refined.potentialHeight c (window sampleHost)
      (getBoundingClientRect sampleElement) firedRefined in
  (Refined.expansionStartHeight firedRefined = minHeight c
   /\ Refined.isCollapsing c 100 (Refined.currentMaxHeight c potential) = true
   /\ Middle.handleScroll c (hostWithContainerBottom 100) firedMiddle
      = (firedMiddle, [640])
   /\ Refined.handleScroll c (hostWithContainerBottom 100) firedRefined
      = (firedRefined, [640]))
  /\ (Refined.expansionStartHeight firedRefinedFrom700 <> minHeight c
      /\ Middle.handleScroll c (hostWithContainerBottom 2000) firedMiddle
         = (firedMiddle, [900])
      /\ Refined.handleScroll c (hostWithContainerBottom 2000)
           firedRefinedFrom700 = (firedRefinedFrom700, [900])).
Proof.
  vm_compute. repeat split. discriminate.
Qed.

(** C10, amended.  Take the same host and configuration and the same
    recorded scroll offset.  If the refined [expansionStartHeight] equals
    [minHeight], the two variants compute the same potential height and
    take the same branch, and when the collapse condition is false both
    write the same height: the condition is sufficient for agreement, not
    necessary.  When the collapse condition is true in both, the middle
    variant's height before the clamp is the refined one plus
    [stickyPadding]. *)
Theorem middle_refined_scroll_equivalence
    (c : Config) (h : Host) (sm : Middle.State) (sr : Refined.State)
    (stickyEl container : HTMLElement) :
  stickyElementRef h = Some stickyEl ->
  containerRef h = Some container ->
  Middle.hasStartedExpanding sm = true ->
  Refined.hasStartedExpanding sr = true ->
  Middle.expansionStartScrollY sm = Refined.expansionStartScrollY sr ->
  let cb := bottom (getBoundingClientRect container) in
  let pm := Middle.potentialHeight c (window h)
              (getBoundingClientRect stickyEl) sm in
  let pr := Refined.potentialHeight c (window h)
              (getBoundingClientRect stickyEl) sr in
  (Refined.expansionStartHeight sr = minHeight c ->
   pm = pr
   /\ Middle.isCollapsing c cb (Middle.currentMaxHeight c pm)
      = Refined.isCollapsing c cb (Refined.currentMaxHeight c pr)
   /\ (Refined.isCollapsing c cb (Refined.currentMaxHeight c pr) = false ->
       snd (Middle.handleScroll c h sm) = snd (Refined.handleScroll c h sr)))
  /\ (Middle.isCollapsing c cb (Middle.currentMaxHeight c pm) = true ->
      Refined.isCollapsing c cb (Refined.currentMaxHeight c pr) = true ->
      Middle.rawHeight c cb pm = Refined.rawHeight c cb pr + stickyPadding c).
Proof.
  intros Hs Hc Hm Hr Hy cb pm pr. split.
  - intros Hh.
    assert (Hp : pm = pr).
    { unfold pm, pr, Middle.potentialHeight, Refined.potentialHeight,
        Middle.scrollDrivenHeight, Refined.scrollDrivenHeight,
        Middle.viewportLimitedHeight, Refined.viewportLimitedHeight.
      rewrite Hy, Hh. reflexivity. }
    repeat split.
    + exact Hp.
    + rewrite Hp. reflexivity.
    + intros Hcol.
      rewrite (middle_handleScroll_fired c h sm stickyEl container Hm Hs Hc).
      rewrite (refined_handleScroll_fired c h sr stickyEl container Hr Hs Hc).
      simpl. unfold Middle.finalHeight, Refined.finalHeight.
      fold cb pm pr. unfold Middle.rawHeight, Refined.rawHeight.
      rewrite Hp.
      change (Middle.isCollapsing c cb (Middle.currentMaxHeight c pr))
        with (Refined.isCollapsing c cb (Refined.currentMaxHeight c pr)).
      rewrite Hcol. reflexivity.
  - intros Hcm Hcr.
    unfold Middle.rawHeight, Refined.rawHeight.
    rewrite Hcm, Hcr, middle_collapsedHeight_eq, refined_collapsedHeight_eq.
    lia.
Qed.

Lemma middle_refined_scroll_equivalence_witness :
  let c := destructure noOptions in
  let pm := Middle.potentialHeight c (window sampleHost)
              (getBoundingClientRect sampleElement) firedMiddle in
  let pr := Refined.potentialHeight c (window sampleHost)
              (getBoundingClientRect sampleElement) firedRefined in
  (pm = pr
   /\ Middle.isCollapsing c 950 (Middle.currentMaxHeight c pm)
      = Refined.isCollapsing c 950 (Refined.currentMaxHeight c pr))
  /\ Middle.rawHeight c 950 pm = Refined.rawHeight c 950 pr + 20
  /\ snd (Middle.handleScroll c (hostWithContainerBottom 980) firedMiddle)
     = snd (Refined.handleScroll c (hostWithContainerBottom 980) firedRefined).
Proof.
  pose proof (middle_refined_scroll_equivalence (destructure noOptions)
                sampleHost firedMiddle firedRefined sampleElement
                sampleContainer eq_refl eq_refl eq_refl eq_refl eq_refl)
    as [Hsame Hcollapse].
  pose proof (middle_refined_scroll_equivalence (destructure noOptions)
                (hostWithContainerBottom 980) firedMiddle firedRefined
                sampleElement _ eq_refl eq_refl eq_refl eq_refl eq_refl)
    as [Hsame' _].
  destruct (Hsame eq_refl) as (Hp & Hc & _).
  destruct (Hsame' eq_refl) as (_ & _ & Hw).
  exact (conj (conj Hp Hc)
               (conj (Hcollapse eq_refl eq_refl) (Hw eq_refl))).
Defined.

(** ** The trigger *)

Lemma refined_callback_fired (c : Config) (w : Window)
    (entries : list IntersectionObserverEntry) (st : Refined.State)
    (ws : list Z) (obs : bool) :
  Refined.hasStartedExpanding st = true ->
  fold_left (Refined.onEntry c w) entries (st, ws, obs) = (st, ws, obs).
Proof.
  intros Hf. induction entries as [|entry rest IH]; simpl.
  - reflexivity.
  - rewrite Hf, andb_false_r. exact IH.
Qed.

Lemma refined_callback_first (c : Config) (w : Window)
    (entries : list IntersectionObserverEntry) (st : Refined.State)
    (obs : bool) (entry : IntersectionObserverEntry) :
  Refined.hasStartedExpanding st = false ->
  find isIntersecting entries = Some entry ->
  Refined.observerCallback c w entries st obs =
    ({| Refined.hasStartedExpanding := true;
        Refined.expansionStartScrollY := scrollY w;
        Refined.expansionStartHeight := fitHeight c w (target entry) |},
     [fitHeight c w (target entry)], false).
Proof.
  intros Hf. unfold Refined.observerCallback.
  induction entries as [|x rest IH]; simpl; intros Hfind.
  - discriminate.
  - destruct (isIntersecting x) eqn:Hx.
    + injection Hfind as ->. rewrite Hf. simpl.
      apply refined_callback_fired. reflexivity.
    + simpl. apply IH, Hfind.
Qed.

Lemma refined_deliver_fired (c : Config)
    (ns : list (Window * list IntersectionObserverEntry))
    (st : Refined.State) :
  Refined.hasStartedExpanding st = true ->
  Refined.deliver c ns st = (st, []).
Proof.
  intros Hf. induction ns as [|[w entries] rest IH]; simpl.
  - reflexivity.
  - unfold Refined.observerCallback.
    rewrite (refined_callback_fired c w entries st [] true Hf), IH.
    reflexivity.
Qed.

Lemma middle_callback_fired (w : Window)
    (entries : list IntersectionObserverEntry) (st : Middle.State)
    (obs : bool) :
  Middle.hasStartedExpanding st = true ->
  Middle.observerCallback w entries st obs = (st, obs).
Proof.
  intros Hf. unfold Middle.observerCallback.
  induction entries as [|entry rest IH]; simpl.
  - reflexivity.
  - rewrite Hf, andb_false_r. exact IH.
Qed.

Lemma middle_callback_first (w : Window)
    (entries : list IntersectionObserverEntry) (st : Middle.State)
    (obs : bool) (entry : IntersectionObserverEntry) :
  Middle.hasStartedExpanding st = false ->
  find isIntersecting entries = Some entry ->
  Middle.observerCallback w entries st obs =
    ({| Middle.hasStartedExpanding := true;
        Middle.expansionStartScrollY := scrollY w |}, false).
Proof.
  intros Hf. unfold Middle.observerCallback.
  induction entries as [|x rest IH]; simpl; intros Hfind.
  - discriminate.
  - destruct (isIntersecting x) eqn:Hx.
    + rewrite Hf. simpl.
      apply (middle_callback_fired w rest _ false). reflexivity.
    + simpl. apply IH, Hfind.
Qed.

Lemma middle_deliver_fired
    (ns : list (Window * list IntersectionObserverEntry))
    (st : Middle.State) :
  Middle.hasStartedExpanding st = true -> Middle.deliver ns st = st.
Proof.
  intros Hf. induction ns as [|[w entries] rest IH]; simpl.
  - reflexivity.
  - rewrite (middle_callback_fired w entries st true Hf). exact IH.
Qed.

Lemma stickyBox_callback_fired (w : Window)
    (entries : list IntersectionObserverEntry) (st : StickyBox.State)
    (obs : bool) :
  StickyBox.isExpansionTriggered st = true ->
  StickyBox.triggerCallback w entries st obs = (st, obs).
Proof.
  intros Hf. unfold StickyBox.triggerCallback.
  induction entries as [|entry rest IH]; simpl.
  - reflexivity.
  - rewrite Hf, andb_false_r. exact IH.
Qed.

Lemma stickyBox_callback_first (w : Window)
    (entries : list IntersectionObserverEntry) (st : StickyBox.State)
    (obs : bool) (entry : IntersectionObserverEntry) :
  StickyBox.isExpansionTriggered st = false ->
  find isIntersecting entries = Some entry ->
  StickyBox.triggerCallback w entries st obs =
    ({| StickyBox.isExpansionTriggered := true;
        StickyBox.expansionStartScrollY := scrollY w |}, false).
Proof.
  intros Hf. unfold StickyBox.triggerCallback.
  induction entries as [|x rest IH]; simpl; intros Hfind.
  - discriminate.
  - destruct (isIntersecting x) eqn:Hx.
    + rewrite Hf. simpl.
      apply (stickyBox_callback_fired w rest _ false). reflexivity.
    + simpl. apply IH, Hfind.
Qed.

Lemma stickyBox_deliver_fired
    (ns : list (Window * list IntersectionObserverEntry))
    (st : StickyBox.State) :
  StickyBox.isExpansionTriggered st = true -> StickyBox.deliver ns st = st.
Proof.
  intros Hf. induction ns as [|[w entries] rest IH]; simpl.
  - reflexivity.
  - rewrite (stickyBox_callback_fired w entries st true Hf). exact IH.
Qed.

Lemma refined_handleResize_flag (c : Config) (h : Host) (st : Refined.State) :
  Refined.hasStartedExpanding (fst (Refined.handleResize c h st))
  = Refined.hasStartedExpanding st.
Proof.
  unfold Refined.handleResize.
  destruct (Refined.hasStartedExpanding st) eqn:Hf; simpl.
  - destruct (stickyElementRef h); simpl; [reflexivity | exact Hf].
  - exact Hf.
Qed.

(** No event turns the flag off again. *)
Lemma refined_step_flag (c : Config) (h : Host) (ev : Refined.Event)
    (e : Refined.Engine) :
  Refined.hasStartedExpanding (Refined.state e) = true ->
  Refined.hasStartedExpanding (Refined.state (fst (Refined.step c h ev e)))
  = true.
Proof.
  intros Hf. pose proof (refined_step_keeps_state c h ev e) as Hk.
  destruct ev; try (rewrite Hk; exact Hf); simpl.
  - destruct (Refined.observing e); [|exact Hf].
    unfold Refined.observerCallback.
    rewrite (refined_callback_fired c (window h) entries _ [] true Hf).
    exact Hf.
  - destruct (Refined.resizeListener e); [|exact Hf].
    destruct (throttle_call (Refined.throttledHandleResize e)) as [t [|]].
    + pose proof (refined_handleResize_flag c h (Refined.state e)) as Hr.
      destruct (Refined.handleResize c h (Refined.state e)).
      simpl in *. rewrite Hr. exact Hf.
    + exact Hf.
  - destruct (throttle_expire (Refined.throttledHandleResize e)) as [t [|]].
    + pose proof (refined_handleResize_flag c h (Refined.state e)) as Hr.
      destruct (Refined.handleResize c h (Refined.state e)).
      simpl in *. rewrite Hr. exact Hf.
    + exact Hf.
Qed.

Lemma refined_run_flag (c : Config) (trace : list (Host * Refined.Event))
    (e : Refined.Engine) :
  Refined.hasStartedExpanding (Refined.state e) = true ->
  Refined.hasStartedExpanding (Refined.state (fst (Refined.run c trace e)))
  = true.
Proof.
  revert e. induction trace as [|[h ev] rest IH]; intros e Hf; simpl.
  - exact Hf.
  - pose proof (refined_step_flag c h ev e Hf) as Hs.
    destruct (Refined.step c h ev e) as [e1 ws1]. simpl in Hs.
    specialize (IH e1 Hs).
    destruct (Refined.run c rest e1) as [e2 ws2]. exact IH.
Qed.

Lemma middle_step_flag (c : Config) (h : Host) (ev : Middle.Event)
    (e : Middle.Engine) :
  Middle.hasStartedExpanding (Middle.state e) = true ->
  Middle.hasStartedExpanding (Middle.state (fst (Middle.step c h ev e)))
  = true.
Proof.
  intros Hf. pose proof (middle_step_keeps_state c h ev e) as Hk.
  destruct ev; try (rewrite Hk; exact Hf); simpl.
  destruct (Middle.observing e); [|exact Hf].
  rewrite (middle_callback_fired (window h) entries _ true Hf). exact Hf.
Qed.

Lemma stickyBox_step_flag (client : bool) (c : StickyBox.Config) (h : Host)
    (ev : StickyBox.Event) (e : StickyBox.Engine) :
  StickyBox.isExpansionTriggered (StickyBox.state e) = true ->
  StickyBox.isExpansionTriggered
    (StickyBox.state (fst (StickyBox.step client c h ev e))) = true.
Proof.
  intros Hf. pose proof (stickyBox_step_keeps_state client c h ev e) as Hk.
  destruct ev; try (rewrite Hk; exact Hf); simpl.
  destruct (StickyBox.triggerObserver e) as [[|]|]; try exact Hf.
  rewrite (stickyBox_callback_fired (window h) entries _ true Hf). exact Hf.
Qed.

(** C6, as stated, fails for an attach cycle that begins after the trigger
    has fired.  In [twoAttachCycles] the second run of the effect subscribes
    a new observer, yet an intersecting notification delivered at scroll
    offset 900 leaves the engine as it is and writes nothing: the recorded
    offset stays 500 and the recorded height 900, so in that cycle the
    mutation happens on no notification.  The middle variant behaves the
    same way. *)
Lemma second_cycle_notification_mutates_nothing :
  let c := destructure noOptions in
  let e := fst (Refined.run c twoAttachCycles (Refined.start c)) in
  let m := fst (runMiddle c twoAttachCyclesMiddle Middle.start) in
  (Refined.observing e = true
   /\ Refined.state e
      = {| Refined.hasStartedExpanding := true;
           Refined.expansionStartScrollY := 500;
           Refined.expansionStartHeight := 900 |}
   /\ Refined.step c (hostScrolledTo 900)
        (Refined.Intersection [intersectingEntry]) e = (e, []))
  /\ (Middle.observing m = true
      /\ Middle.state m
         = {| Middle.hasStartedExpanding := true;
              Middle.expansionStartScrollY := 500 |}
      /\ Middle.step c (hostScrolledTo 900)
           (Middle.Intersection [intersectingEntry]) m = (m, [])).
Proof.
  vm_compute. repeat split.
Qed.

(** C6, amended.  The flag starts false when the composable is called; the
    closure state is shared by all attach cycles, and neither a cleanup nor
    a new run of the effect resets it.  In an attach cycle that begins with
    the flag false, let the observer callback be delivered [N >= 1] times,
    the first delivery carrying an intersecting entry: the state after all
    [N] deliveries is the one the first delivery alone produces (flag set,
    [expansionStartScrollY] the scroll offset read at the first delivery
    and, in the refined variant, [expansionStartHeight] the fit height
    written then), and the later deliveries change nothing and write
    nothing.  In an attach cycle that begins with the flag set, no delivery
    changes the state or writes.  Once the flag is set, no event of the
    engine and no trace of events clears it. *)
Theorem trigger_fires_once :
  (forall c, Refined.hasStartedExpanding (Refined.init c) = false)
  /\ Middle.hasStartedExpanding Middle.init = false
  /\ StickyBox.isExpansionTriggered StickyBox.init = false
  /\ (forall c st w entries entry ns,
        Refined.hasStartedExpanding st = false ->
        find isIntersecting entries = Some entry ->
        Refined.deliver c ((w, entries) :: ns) st
        = ({| Refined.hasStartedExpanding := true;
              Refined.expansionStartScrollY := scrollY w;
              Refined.expansionStartHeight := fitHeight c w (target entry) |},
           [fitHeight c w (target entry)])
        /\ Refined.deliver c ((w, entries) :: ns) st
           = Refined.deliver c [(w, entries)] st)
  /\ (forall st w entries entry ns,
        Middle.hasStartedExpanding st = false ->
        find isIntersecting entries = Some entry ->
        Middle.deliver ((w, entries) :: ns) st
        = {| Middle.hasStartedExpanding := true;
             Middle.expansionStartScrollY := scrollY w |}
        /\ Middle.deliver ((w, entries) :: ns) st
           = Middle.deliver [(w, entries)] st)
  /\ (forall st w entries entry ns,
        StickyBox.isExpansionTriggered st = false ->
        find isIntersecting entries = Some entry ->
        StickyBox.deliver ((w, entries) :: ns) st
        = {| StickyBox.isExpansionTriggered := true;
             StickyBox.expansionStartScrollY := scrollY w |}
        /\ StickyBox.deliver ((w, entries) :: ns) st
           = StickyBox.deliver [(w, entries)] st)
  /\ (forall c w entries st,
        Refined.hasStartedExpanding st = true ->
        Refined.observerCallback c w entries st true = (st, [], true))
  /\ (forall w entries st,
        Middle.hasStartedExpanding st = true ->
        Middle.observerCallback w entries st true = (st, true))
  /\ (forall c h ev e,
        Refined.hasStartedExpanding (Refined.state e) = true ->
        Refined.hasStartedExpanding
          (Refined.state (fst (Refined.step c h ev e))) = true)
  /\ (forall c trace e,
        Refined.hasStartedExpanding (Refined.state e) = true ->
        Refined.hasStartedExpanding
          (Refined.state (fst (Refined.run c trace e))) = true)
  /\ (forall c h ev e,
        Middle.hasStartedExpanding (Middle.state e) = true ->
        Middle.hasStartedExpanding
          (Middle.state (fst (Middle.step c h ev e))) = true)
  /\ (forall client c h ev e,
        StickyBox.isExpansionTriggered (StickyBox.state e) = true ->
        StickyBox.isExpansionTriggered
          (StickyBox.state (fst (StickyBox.step client c h ev e))) = true)
  /\ (forall c ns st,
        Refined.hasStartedExpanding st = true ->
        Refined.deliver c ns st = (st, []))
  /\ (forall ns st,
        Middle.hasStartedExpanding st = true -> Middle.deliver ns st = st)
  /\ (forall ns st,
        StickyBox.isExpansionTriggered st = true ->
        StickyBox.deliver ns st = st)
  /\ (forall c hc hr e,
        Refined.state
          (fst (Refined.run c [(hc, Refined.Cleanup); (hr, Refined.EffectRun)]
                  e)) = Refined.state e)
  /\ (forall c hc hr e,
        Middle.state
          (fst (runMiddle c [(hc, Middle.Cleanup); (hr, Middle.EffectRun)] e))
        = Middle.state e).
Proof.
  split; [reflexivity|]. split; [reflexivity|]. split; [reflexivity|].
  split; [|split; [|split]].
  - intros c st w entries entry ns Hf Hfind.
    assert (Hall : forall ms, Refined.deliver c ((w, entries) :: ms) st
      = ({| Refined.hasStartedExpanding := true;
            Refined.expansionStartScrollY := scrollY w;
            Refined.expansionStartHeight := fitHeight c w (target entry) |},
         [fitHeight c w (target entry)])).
    { intros ms. simpl.
      rewrite (refined_callback_first c w entries st true entry Hf Hfind).
      rewrite refined_deliver_fired by reflexivity. reflexivity. }
    split; [apply Hall | rewrite !Hall; reflexivity].
  - intros st w entries entry ns Hf Hfind.
    assert (Hall : forall ms, Middle.deliver ((w, entries) :: ms) st
      = {| Middle.hasStartedExpanding := true;
           Middle.expansionStartScrollY := scrollY w |}).
    { intros ms. simpl.
      rewrite (middle_callback_first w entries st true entry Hf Hfind).
      apply middle_deliver_fired. reflexivity. }
    split; [apply Hall | rewrite !Hall; reflexivity].
  - intros st w entries entry ns Hf Hfind.
    assert (Hall : forall ms, StickyBox.deliver ((w, entries) :: ms) st
      = {| StickyBox.isExpansionTriggered := true;
           StickyBox.expansionStartScrollY := scrollY w |}).
    { intros ms. simpl.
      rewrite (stickyBox_callback_first w entries st true entry Hf Hfind).
      apply stickyBox_deliver_fired. reflexivity. }
    split; [apply Hall | rewrite !Hall; reflexivity].
  - split; [|split; [|split; [|split; [|split; [|split]]]]].
    + intros c w entries st Hf. apply refined_callback_fired, Hf.
    + intros w entries st Hf. apply middle_callback_fired, Hf.
    + apply refined_step_flag.
    + apply refined_run_flag.
    + apply middle_step_flag.
    + apply stickyBox_step_flag.
    + split; [|split; [|split; [|split]]].
      * intros c ns st Hf. apply refined_deliver_fired, Hf.
      * intros ns st Hf. apply middle_deliver_fired, Hf.
      * intros ns st Hf. apply stickyBox_deliver_fired, Hf.
      * intros c hc hr e. simpl.
        destruct (stickyElementRef hr), (containerRef hr); reflexivity.
      * intros c hc hr e. simpl.
        destruct (stickyElementRef hr), (containerRef hr); reflexivity.
Qed.

Lemma trigger_fires_once_witness :
  let c := destructure noOptions in
  Refined.deliver c
    [ (window (hostScrolledTo 500), [intersectingEntry]);
      (window (hostScrolledTo 650), [intersectingEntry]);
      (window (hostScrolledTo 800), [intersectingEntry]) ]
    (Refined.init c)
  = ({| Refined.hasStartedExpanding := true;
        Refined.expansionStartScrollY := 500;
        Refined.expansionStartHeight := 900 |}, [900])
  /\ Middle.deliver
       [ (window (hostScrolledTo 500), [intersectingEntry]);
         (window (hostScrolledTo 650), [intersectingEntry]) ]
       Middle.init
     = {| Middle.hasStartedExpanding := true;
          Middle.expansionStartScrollY := 500 |}
  /\ Refined.deliver c
       [ (window (hostScrolledTo 900), [intersectingEntry]);
         (window (hostScrolledTo 950), [intersectingEntry]) ]
       firedRefined
     = (firedRefined, []).
Proof.
  destruct trigger_fires_once
    as (_ & _ & _ & Hr & Hm & _ & _ & _ & _ & _ & _ & _ & Hd & _).
  exact (conj
    (proj1 (Hr (destructure noOptions) (Refined.init (destructure noOptions))
              (window (hostScrolledTo 500)) [intersectingEntry]
              intersectingEntry _ eq_refl eq_refl))
    (conj
      (proj1 (Hm Middle.init (window (hostScrolledTo 500)) [intersectingEntry]
                intersectingEntry _ eq_refl eq_refl))
      (Hd (destructure noOptions) _ firedRefined eq_refl))).
Defined.

(** ** Teardown of the refined variant *)

Lemma refined_cleanup_detached (c : Config) (h : Host) (e : Refined.Engine) :
  detached (fst (Refined.step c h Refined.Cleanup e)).
Proof. repeat split. Qed.

Lemma refined_detached_step (c : Config) (h : Host) (ev : Refined.Event)
    (e : Refined.Engine) :
  detached e -> isNotification ev = true -> Refined.step c h ev e = (e, []).
Proof.
  intros (Hs & Hr & Ho) Hn.
  destruct ev; try discriminate; simpl.
  - rewrite Ho. reflexivity.
  - rewrite Hs. reflexivity.
  - rewrite Hr. reflexivity.
Qed.

Lemma refined_detached_run (c : Config)
    (trace : list (Host * Refined.Event)) (e : Refined.Engine) :
  detached e ->
  forallb (fun p => isNotification (snd p)) trace = true ->
  Refined.run c trace e = (e, []).
Proof.
  intros Hd. induction trace as [|[h ev] rest IH]; simpl; intros Hall.
  - reflexivity.
  - apply andb_prop in Hall as [Hev Hrest].
    rewrite (refined_detached_step c h ev e Hd Hev), (IH Hrest).
    reflexivity.
Qed.

(** C2, as stated, fails: after the cleanup of [cycleWithPendingScroll] all
    subscriptions are gone, the trailing call of the throttled scroll
    handler is still pending, and when its timer expires the handler writes
    the height 870. *)
Lemma cleanup_keeps_pending_scroll_call :
  let c := destructure noOptions in
  let e := fst (Refined.run c cycleWithPendingScroll (Refined.start c)) in
  detached e
  /\ trailingPending (Refined.throttledHandleScroll e) = true
  /\ snd (Refined.run c [(hostScrolledTo 650, Refined.ScrollTimer)] e)
     = [870].
Proof. vm_compute. repeat split. Qed.

(** C2, amended.  The cleanup writes nothing, removes both listeners and
    disconnects the observer, and leaves the closure state and both
    throttled functions as they are.  From then on scroll, resize and
    intersection notifications change nothing and write nothing.  A trailing
    call that was pending when the cleanup ran still runs when its timer
    expires: the timer event writes what the scroll (resize) handler writes
    on the layout of that moment, which is nothing when the element ref, or
    for the scroll handler the container ref, is null by then. *)
Theorem cleanup_unsubscribes_without_cancelling
    (c : Config) (hc : Host) (e : Refined.Engine) :
  let e' := fst (Refined.step c hc Refined.Cleanup e) in
  snd (Refined.step c hc Refined.Cleanup e) = []
  /\ detached e'
  /\ Refined.state e' = Refined.state e
  /\ Refined.throttledHandleScroll e' = Refined.throttledHandleScroll e
  /\ Refined.throttledHandleResize e' = Refined.throttledHandleResize e
  /\ (forall trace,
        forallb (fun p => isNotification (snd p)) trace = true ->
        Refined.run c trace e' = (e', []))
  /\ (forall h,
        Refined.throttledHandleScroll e
        = {| windowOpen := true; trailingPending := true |} ->
        snd (Refined.step c h Refined.ScrollTimer e')
        = snd (Refined.handleScroll c h (Refined.state e))
        /\ (stickyElementRef h = None \/ containerRef h = None ->
            snd (Refined.step c h Refined.ScrollTimer e') = []))
  /\ (forall h,
        Refined.throttledHandleResize e
        = {| windowOpen := true; trailingPending := true |} ->
        snd (Refined.step c h Refined.ResizeTimer e')
        = snd (Refined.handleResize c h (Refined.state e))
        /\ (stickyElementRef h = None ->
            snd (Refined.step c h Refined.ResizeTimer e') = [])).
Proof.
  intros e'.
  split; [reflexivity|]. split; [apply refined_cleanup_detached|].
  split; [reflexivity|]. split; [reflexivity|]. split; [reflexivity|].
  split; [|split].
  - intros trace Hall.
    apply refined_detached_run; [apply refined_cleanup_detached | exact Hall].
  - intros h Hp.
    assert (Hstep : snd (Refined.step c h Refined.ScrollTimer e')
                    = snd (Refined.handleScroll c h (Refined.state e))).
    { unfold e'. simpl. rewrite Hp. simpl.
      destruct (Refined.handleScroll c h (Refined.state e)). reflexivity. }
    split; [exact Hstep|].
    intros Hnull. rewrite Hstep. unfold Refined.handleScroll.
    destruct Hnull as [Hs | Hc]; [rewrite Hs | rewrite Hc]; guards;
      reflexivity.
  - intros h Hp.
    assert (Hstep : snd (Refined.step c h Refined.ResizeTimer e')
                    = snd (Refined.handleResize c h (Refined.state e))).
    { unfold e'. simpl. rewrite Hp. simpl.
      destruct (Refined.handleResize c h (Refined.state e)). reflexivity. }
    split; [exact Hstep|].
    intros Hs. rewrite Hstep. unfold Refined.handleResize.
    rewrite Hs. guards; reflexivity.
Qed.

Lemma cleanup_unsubscribes_without_cancelling_witness :
  let c := destructure noOptions in
  let e' := fst (Refined.step c (hostScrolledTo 650) Refined.Cleanup
                   enginePendingScroll) in
  Refined.run c [ (hostScrolledTo 700, Refined.Scroll);
                  (hostScrolledTo 700, Refined.Resize) ] e' = (e', [])
  /\ snd (Refined.step c unmountedContainer Refined.ScrollTimer e') = [].
Proof.
  pose proof (cleanup_unsubscribes_without_cancelling (destructure noOptions)
                (hostScrolledTo 650) enginePendingScroll)
    as (_ & _ & _ & _ & _ & Hquiet & Htimer & _).
  exact (conj (Hquiet [ (hostScrolledTo 700, Refined.Scroll);
                        (hostScrolledTo 700, Refined.Resize) ] eq_refl)
              (proj2 (Htimer unmountedContainer eq_refl)
                     (or_intror eq_refl))).
Defined.

(** * Further properties of the handlers *)

(** ** The refined height as one expression *)

(** X1. The refined scroll handler writes the clamp from below of a four-term
    minimum: scroll-driven height, viewport-limited height, [maxHeight] and
    the room the container leaves under the trigger offset.  The collapse
    branch adds nothing beyond the fourth term. *)
Theorem refined_finalHeight_closed_form
    (c : Config) (w : Window) (containerRect stickyElRect : DOMRect)
    (st : Refined.State) :
  Refined.finalHeight c w containerRect stickyElRect st
  = Z.max (minHeight c)
      (Z.min (Z.min (Refined.scrollDrivenHeight w st)
                    (Refined.viewportLimitedHeight c w stickyElRect))
             (Z.min (maxHeight c)
                    (bottom containerRect - stickyTriggerOffset c))).
Proof.
  unfold Refined.finalHeight, Refined.rawHeight, Refined.isCollapsing,
    Refined.potentialHeight, Refined.currentMaxHeight.
  rewrite refined_collapsedHeight_eq.
  destruct (Z.ltb_spec (bottom containerRect)
              (Z.min (Z.min (Refined.scrollDrivenHeight w st)
                        (Refined.viewportLimitedHeight c w stickyElRect))
                 (maxHeight c) + stickyTriggerOffset c)); lia.
Qed.

(** X2. With the layout and the closure state fixed, scrolling further down
    never makes the refined handler write a smaller height, and the height
    grows by no more than the distance scrolled. *)
Theorem refined_finalHeight_scroll_monotone
    (c : Config) (w : Window) (containerRect stickyElRect : DOMRect)
    (st : Refined.State) (y1 y2 : Z) :
  y1 <= y2 ->
  Refined.finalHeight c (atScrollY y1 w) containerRect stickyElRect st
  <= Refined.finalHeight c (atScrollY y2 w) containerRect stickyElRect st
  <= Refined.finalHeight c (atScrollY y1 w) containerRect stickyElRect st
     + (y2 - y1).
Proof.
  intros Hy. rewrite !refined_finalHeight_closed_form.
  unfold Refined.scrollDrivenHeight, Refined.viewportLimitedHeight, atScrollY.
  simpl. lia.
Qed.

Lemma refined_finalHeight_scroll_monotone_witness :
  Refined.finalHeight (destructure noOptions)
    (atScrollY 600 (window sampleHost)) {| top := -600; bottom := 2000 |}
    (getBoundingClientRect sampleElement) firedRefined
  <= Refined.finalHeight (destructure noOptions)
       (atScrollY 700 (window sampleHost)) {| top := -600; bottom := 2000 |}
       (getBoundingClientRect sampleElement) firedRefined
  <= Refined.finalHeight (destructure noOptions)
       (atScrollY 600 (window sampleHost)) {| top := -600; bottom := 2000 |}
       (getBoundingClientRect sampleElement) firedRefined + (700 - 600).
Proof.
  apply (refined_finalHeight_scroll_monotone (destructure noOptions)
           (window sampleHost) {| top := -600; bottom := 2000 |}
           (getBoundingClientRect sampleElement) firedRefined 600 700).
  lia.
Defined.

(** X3. With everything else fixed, the refined height follows the container's
    bottom edge monotonically and moves by no more than the edge does, on
    both sides of the collapse boundary and across it. *)
Theorem refined_finalHeight_container_monotone
    (c : Config) (w : Window) (containerRect stickyElRect : DOMRect)
    (st : Refined.State) (b1 b2 : Z) :
  b1 <= b2 ->
  Refined.finalHeight c w (withBottom b1 containerRect) stickyElRect st
  <= Refined.finalHeight c w (withBottom b2 containerRect) stickyElRect st
  <= Refined.finalHeight c w (withBottom b1 containerRect) stickyElRect st
     + (b2 - b1).
Proof.
  intros Hb. rewrite !refined_finalHeight_closed_form.
  unfold withBottom. simpl. lia.
Qed.

Lemma refined_finalHeight_container_monotone_witness :
  Refined.finalHeight (destructure noOptions) (window sampleHost)
    (withBottom 900 (getBoundingClientRect sampleContainer))
    (getBoundingClientRect sampleElement) firedRefined
  <= Refined.finalHeight (destructure noOptions) (window sampleHost)
       (withBottom 1000 (getBoundingClientRect sampleContainer))
       (getBoundingClientRect sampleElement) firedRefined
  <= Refined.finalHeight (destructure noOptions) (window sampleHost)
       (withBottom 900 (getBoundingClientRect sampleContainer))
       (getBoundingClientRect sampleElement) firedRefined + (1000 - 900).
Proof.
  apply (refined_finalHeight_container_monotone (destructure noOptions)
           (window sampleHost) (getBoundingClientRect sampleContainer)
           (getBoundingClientRect sampleElement) firedRefined 900 1000).
  lia.
Defined.

(** X4. The height the refined scroll handler writes is either [minHeight] or
    it respects every limit at once: the element, placed at the trigger
    offset, ends inside the container; placed at its current top, it ends
    [stickyPadding] above the bottom of the viewport; it does not exceed
    [maxHeight] nor the scroll-driven height. *)
Theorem refined_handleScroll_respects_limits
    (c : Config) (h : Host) (st : Refined.State)
    (stickyEl container : HTMLElement) :
  Refined.hasStartedExpanding st = true ->
  stickyElementRef h = Some stickyEl ->
  containerRef h = Some container ->
  exists v,
    Refined.handleScroll c h st = (st, [v])
    /\ (v = minHeight c
        \/ (stickyTriggerOffset c + v
              <= bottom (getBoundingClientRect container)
            /\ top (getBoundingClientRect stickyEl) + v + stickyPadding c
               <= innerHeight (window h)
            /\ v <= maxHeight c
            /\ v <= Refined.scrollDrivenHeight (window h) st)).
Proof.
  intros Hf Hs Hc. eexists. split.
  - apply (refined_handleScroll_fired c h st stickyEl container Hf Hs Hc).
  - rewrite refined_finalHeight_closed_form.
    unfold Refined.viewportLimitedHeight. lia.
Qed.

Lemma refined_handleScroll_respects_limits_witness :
  exists v,
    Refined.handleScroll (destructure noOptions) sampleHost firedRefined
    = (firedRefined, [v])
    /\ (v = 640
        \/ (80 + v <= 950 /\ 80 + v + 20 <= 1000 /\ v <= 1000
            /\ v <= Refined.scrollDrivenHeight (window sampleHost)
                      firedRefined)).
Proof.
  exact (refined_handleScroll_respects_limits (destructure noOptions)
           sampleHost firedRefined sampleElement sampleContainer
           eq_refl eq_refl eq_refl).
Defined.

(** ** Middle against refined, after the clamp *)

(** X5. On the same layout, with the same recorded scroll offset, the refined
    start height equal to [minHeight] and a non-negative padding, the middle
    variant writes at least what the refined one writes and at most
    [stickyPadding] more. *)
Theorem middle_refined_final_gap
    (c : Config) (w : Window) (containerRect stickyElRect : DOMRect)
    (sm : Middle.State) (sr : Refined.State) :
  Middle.expansionStartScrollY sm = Refined.expansionStartScrollY sr ->
  Refined.expansionStartHeight sr = minHeight c ->
  0 <= stickyPadding c ->
  Refined.finalHeight c w containerRect stickyElRect sr
  <= Middle.finalHeight c w containerRect stickyElRect sm
  <= Refined.finalHeight c w containerRect stickyElRect sr + stickyPadding c.
Proof.
  intros Hy Hh Hp. rewrite refined_finalHeight_closed_form.
  unfold Middle.finalHeight, Middle.rawHeight, Middle.isCollapsing,
    Middle.potentialHeight, Middle.currentMaxHeight,
    Middle.scrollDrivenHeight, Middle.viewportLimitedHeight,
    Refined.scrollDrivenHeight, Refined.viewportLimitedHeight.
  rewrite middle_collapsedHeight_eq, Hy, Hh.
  match goal with
  | |- context [?a <? ?b] => destruct (Z.ltb_spec a b)
  end; lia.
Qed.

Lemma middle_refined_final_gap_witness :
  Refined.finalHeight (destructure noOptions) (window sampleHost)
    (getBoundingClientRect sampleContainer)
    (getBoundingClientRect sampleElement) firedRefined
  <= Middle.finalHeight (destructure noOptions) (window sampleHost)
       (getBoundingClientRect sampleContainer)
       (getBoundingClientRect sampleElement) firedMiddle
  <= Refined.finalHeight (destructure noOptions) (window sampleHost)
       (getBoundingClientRect sampleContainer)
       (getBoundingClientRect sampleElement) firedRefined + 20.
Proof.
  apply (middle_refined_final_gap (destructure noOptions) (window sampleHost)
           (getBoundingClientRect sampleContainer)
           (getBoundingClientRect sampleElement) firedMiddle firedRefined).
  - reflexivity.
  - reflexivity.
  - simpl. lia.
Defined.

(** ** Bounds given in the wrong order *)

(** X6. The options are not validated.  When [maxHeight < minHeight] the lower
    bound wins everywhere: each scroll handler and the viewport fit write
    exactly [minHeight], whatever the layout. *)
Theorem inverted_bounds_write_minHeight
    (c : Config) (cb : StickyBox.Config) (w : Window)
    (containerRect stickyElRect : DOMRect)
    (element parentContainer : HTMLElement)
    (sr : Refined.State) (sm : Middle.State) (sb : StickyBox.State) :
  maxHeight c < minHeight c ->
  StickyBox.maxHeight cb < StickyBox.minHeight cb ->
  Refined.finalHeight c w containerRect stickyElRect sr = minHeight c
  /\ Middle.finalHeight c w containerRect stickyElRect sm = minHeight c
  /\ Refined.updateHeightToFitViewport c w element
     = (minHeight c, [minHeight c])
  /\ StickyBox.clampedHeight cb w parentContainer sb
     = StickyBox.minHeight cb.
Proof.
  intros Hc Hb. repeat split.
  - unfold Refined.finalHeight. lia.
  - unfold Middle.finalHeight. lia.
  - unfold Refined.updateHeightToFitViewport.
    assert (Hfit : Z.max (minHeight c)
                     (Z.min (innerHeight w - top (getBoundingClientRect element)
                             - stickyPadding c) (maxHeight c)) = minHeight c)
      by lia.
    cbv zeta. rewrite Hfit. reflexivity.
  - unfold StickyBox.clampedHeight. lia.
Qed.

Lemma inverted_bounds_write_minHeight_witness :
  let c := {| minHeight := 800; maxHeight := 700;
              headerHeight := 60; stickyPadding := 20 |} in
  let cb := {| StickyBox.minHeight := 800; StickyBox.maxHeight := 700;
               StickyBox.headerHeight := 60; StickyBox.topOffsetPadding := 20;
               StickyBox.bottomOffset := 20 |} in
  Refined.finalHeight c (window sampleHost)
    (getBoundingClientRect sampleContainer)
    (getBoundingClientRect sampleElement) firedRefined = 800
  /\ Middle.finalHeight c (window sampleHost)
       (getBoundingClientRect sampleContainer)
       (getBoundingClientRect sampleElement) firedMiddle = 800
  /\ Refined.updateHeightToFitViewport c (window sampleHost) sampleElement
     = (800, [800])
  /\ StickyBox.clampedHeight cb (window sampleHost) sampleContainer
       firedStickyBox = 800.
Proof.
  apply (inverted_bounds_write_minHeight
           {| minHeight := 800; maxHeight := 700;
              headerHeight := 60; stickyPadding := 20 |}
           {| StickyBox.minHeight := 800; StickyBox.maxHeight := 700;
              StickyBox.headerHeight := 60; StickyBox.topOffsetPadding := 20;
              StickyBox.bottomOffset := 20 |});
    simpl; lia.
Defined.

(** ** Every write of a run *)

Lemma refined_handleScroll_writes_within (c : Config) (h : Host)
    (st : Refined.State) :
  minHeight c <= maxHeight c ->
  Forall (within (minHeight c) (maxHeight c))
         (snd (Refined.handleScroll c h st)).
Proof.
  intros Hle. unfold Refined.handleScroll. guards; simpl; constructor.
  - apply clamp_bounds, Hle.
  - constructor.
Qed.

Lemma refined_handleResize_writes_within (c : Config) (h : Host)
    (st : Refined.State) :
  minHeight c <= maxHeight c ->
  Forall (within (minHeight c) (maxHeight c))
         (snd (Refined.handleResize c h st)).
Proof.
  intros Hle. unfold Refined.handleResize. guards; simpl; constructor.
  - apply clamp_bounds, Hle.
  - constructor.
Qed.

Lemma refined_callback_writes_within (c : Config) (w : Window)
    (entries : list IntersectionObserverEntry) :
  minHeight c <= maxHeight c ->
  forall (st : Refined.State) (ws : list Z) (obs : bool),
    Forall (within (minHeight c) (maxHeight c)) ws ->
    Forall (within (minHeight c) (maxHeight c))
           (snd (fst (fold_left (Refined.onEntry c w) entries (st, ws, obs)))).
Proof.
  intros Hle. induction entries as [|x rest IH]; intros st ws obs Hws; simpl.
  - exact Hws.
  - destruct (isIntersecting x && negb (Refined.hasStartedExpanding st)).
    + apply IH. apply Forall_app. split; [exact Hws|].
      constructor; [apply clamp_bounds, Hle | constructor].
    + apply IH, Hws.
Qed.

Lemma refined_step_writes_within (c : Config) (h : Host) (ev : Refined.Event)
    (e : Refined.Engine) :
  minHeight c <= maxHeight c ->
  Forall (within (minHeight c) (maxHeight c)) (snd (Refined.step c h ev e)).
Proof.
  intros Hle. destruct ev; simpl.
  - destruct (stickyElementRef h), (containerRef h); constructor.
  - constructor.
  - destruct (Refined.observing e); [|constructor].
    pose proof (refined_callback_writes_within c (window h) entries Hle
                  (Refined.state e) [] true (Forall_nil _)) as Hw.
    unfold Refined.observerCallback.
    destruct (fold_left (Refined.onEntry c (window h)) entries
                (Refined.state e, [], true)) as [[st ws] obs].
    exact Hw.
  - destruct (Refined.scrollListener e); [|constructor].
    destruct (throttle_call (Refined.throttledHandleScroll e)) as [t [|]];
      [|constructor].
    pose proof (refined_handleScroll_writes_within c h (Refined.state e) Hle)
      as Hw.
    destruct (Refined.handleScroll c h (Refined.state e)). exact Hw.
  - destruct (Refined.resizeListener e); [|constructor].
    destruct (throttle_call (Refined.throttledHandleResize e)) as [t [|]];
      [|constructor].
    pose proof (refined_handleResize_writes_within c h (Refined.state e) Hle)
      as Hw.
    destruct (Refined.handleResize c h (Refined.state e)). exact Hw.
  - destruct (throttle_expire (Refined.throttledHandleScroll e)) as [t [|]];
      [|constructor].
    pose proof (refined_handleScroll_writes_within c h (Refined.state e) Hle)
      as Hw.
    destruct (Refined.handleScroll c h (Refined.state e)). exact Hw.
  - destruct (throttle_expire (Refined.throttledHandleResize e)) as [t [|]];
      [|constructor].
    pose proof (refined_handleResize_writes_within c h (Refined.state e) Hle)
      as Hw.
    destruct (Refined.handleResize c h (Refined.state e)). exact Hw.
Qed.

(** X7. In the refined variant every height written during a run, by the
    trigger's viewport fit, by a scroll, by a resize or by a trailing
    throttled call, lies in [[minHeight, maxHeight]] when the bounds are
    ordered; this holds from any engine state and for any trace. *)
Theorem refined_run_writes_within
    (c : Config) (trace : list (Host * Refined.Event)) (e : Refined.Engine) :
  minHeight c <= maxHeight c ->
  Forall (within (minHeight c) (maxHeight c)) (snd (Refined.run c trace e)).
Proof.
  intros Hle. revert e.
  induction trace as [|[h ev] rest IH]; intros e; simpl.
  - constructor.
  - pose proof (refined_step_writes_within c h ev e Hle) as Hs.
    destruct (Refined.step c h ev e) as [e1 ws1].
    specialize (IH e1).
    destruct (Refined.run c rest e1) as [e2 ws2].
    simpl in *. apply Forall_app. split; assumption.
Qed.

Lemma refined_run_writes_within_witness :
  Forall (within 640 1000)
    (snd (Refined.run (destructure noOptions)
            (cycleWithPendingScroll
             ++ [(hostScrolledTo 650, Refined.ScrollTimer)])
            (Refined.start (destructure noOptions)))).
Proof.
  apply (refined_run_writes_within (destructure noOptions)).
  simpl. lia.
Defined.

(** X8. In the middle and the offset variant, whose only writer is the
    scroll handler, every height written during a run lies in
    [[minHeight, maxHeight]] when the bounds are ordered, from any engine
    state and for any trace. *)
Theorem unthrottled_run_writes_within :
  (forall c trace e,
     minHeight c <= maxHeight c ->
     Forall (within (minHeight c) (maxHeight c)) (snd (runMiddle c trace e)))
  /\ (forall client c trace e,
        StickyBox.minHeight c <= StickyBox.maxHeight c ->
        Forall (within (StickyBox.minHeight c) (StickyBox.maxHeight c))
               (snd (runStickyBox client c trace e))).
Proof.
  split.
  - intros c trace e Hle. revert e.
    induction trace as [|[h ev] rest IH]; intros e; simpl; [constructor|].
    assert (Hs : Forall (within (minHeight c) (maxHeight c))
                        (snd (Middle.step c h ev e))).
    { destruct ev; simpl.
      - destruct (stickyElementRef h), (containerRef h); constructor.
      - constructor.
      - destruct (Middle.observing e); [|constructor].
        destruct (Middle.observerCallback (window h) entries
                    (Middle.state e) true). constructor.
      - destruct (Middle.scrollListener e); [|constructor].
        unfold Middle.handleScroll. guards; simpl; constructor.
        + apply clamp_bounds, Hle.
        + constructor. }
    destruct (Middle.step c h ev e) as [e1 ws1]. specialize (IH e1).
    destruct (runMiddle c rest e1) as [e2 ws2].
    simpl in *. apply Forall_app. split; assumption.
  - intros client c trace e Hle. revert e.
    induction trace as [|[h ev] rest IH]; intros e; simpl; [constructor|].
    assert (Hs : Forall (within (StickyBox.minHeight c) (StickyBox.maxHeight c))
                        (snd (StickyBox.step client c h ev e))).
    { destruct ev; simpl.
      - destruct client; simpl; [|constructor].
        destruct (stickyElementRef h), (containerRef h); constructor.
      - destruct client; constructor.
      - destruct (StickyBox.triggerObserver e) as [[|]|]; try constructor.
        destruct (StickyBox.triggerCallback (window h) entries
                    (StickyBox.state e) true). constructor.
      - destruct (StickyBox.scrollListener e); [|constructor].
        unfold StickyBox.handleScroll. guards; simpl; constructor.
        + apply clamp_bounds, Hle.
        + constructor. }
    destruct (StickyBox.step client c h ev e) as [e1 ws1]. specialize (IH e1).
    destruct (runStickyBox client c rest e1) as [e2 ws2].
    simpl in *. apply Forall_app. split; assumption.
Qed.

Lemma unthrottled_run_writes_within_witness :
  Forall (within 640 1000)
    (snd (runMiddle (destructure noOptions)
            [ (hostScrolledTo 500, Middle.EffectRun);
              (hostScrolledTo 500, Middle.Intersection [intersectingEntry]);
              (hostScrolledTo 700, Middle.Scroll) ] Middle.start)).
Proof.
  apply (proj1 unthrottled_run_writes_within (destructure noOptions)).
  simpl. lia.
Defined.

(** ** Before the trigger, without a mount, after a remount *)

Lemma refined_callback_none (c : Config) (w : Window)
    (entries : list IntersectionObserverEntry)
    (acc : Refined.State * list Z * bool) :
  existsb isIntersecting entries = false ->
  fold_left (Refined.onEntry c w) entries acc = acc.
Proof.
  induction entries as [|x rest IH]; simpl; intros Hex.
  - reflexivity.
  - apply orb_false_elim in Hex as [Hx Hrest].
    destruct acc as [[st ws] obs]. simpl. rewrite Hx. simpl.
    apply IH, Hrest.
Qed.

Lemma middle_callback_none (w : Window)
    (entries : list IntersectionObserverEntry) (acc : Middle.State * bool) :
  existsb isIntersecting entries = false ->
  fold_left (Middle.onEntry w) entries acc = acc.
Proof.
  induction entries as [|x rest IH]; simpl; intros Hex.
  - reflexivity.
  - apply orb_false_elim in Hex as [Hx Hrest].
    destruct acc as [st obs]. simpl. rewrite Hx. simpl.
    apply IH, Hrest.
Qed.

Lemma stickyBox_callback_none (w : Window)
    (entries : list IntersectionObserverEntry) (acc : StickyBox.State * bool) :
  existsb isIntersecting entries = false ->
  fold_left (StickyBox.onEntry w) entries acc = acc.
Proof.
  induction entries as [|x rest IH]; simpl; intros Hex.
  - reflexivity.
  - apply orb_false_elim in Hex as [Hx Hrest].
    destruct acc as [st obs]. simpl. rewrite Hx. simpl.
    apply IH, Hrest.
Qed.

Lemma refined_step_silent (c : Config) (h : Host) (ev : Refined.Event)
    (e : Refined.Engine) :
  Refined.hasStartedExpanding (Refined.state e) = false ->
  firesRefined ev = false ->
  snd (Refined.step c h ev e) = []
  /\ Refined.state (fst (Refined.step c h ev e)) = Refined.state e.
Proof.
  intros Hf Hev.
  assert (Hscroll : Refined.handleScroll c h (Refined.state e)
                    = (Refined.state e, []))
    by (unfold Refined.handleScroll; rewrite Hf; reflexivity).
  assert (Hresize : Refined.handleResize c h (Refined.state e)
                    = (Refined.state e, []))
    by (unfold Refined.handleResize; rewrite Hf; reflexivity).
  destruct ev; simpl in *.
  - destruct (stickyElementRef h), (containerRef h); split; reflexivity.
  - split; reflexivity.
  - destruct (Refined.observing e); [|split; reflexivity].
    unfold Refined.observerCallback.
    rewrite (refined_callback_none c (window h) entries _ Hev).
    split; reflexivity.
  - destruct (Refined.scrollListener e); [|split; reflexivity].
    destruct (throttle_call (Refined.throttledHandleScroll e)) as [t [|]];
      [rewrite Hscroll|]; split; reflexivity.
  - destruct (Refined.resizeListener e); [|split; reflexivity].
    destruct (throttle_call (Refined.throttledHandleResize e)) as [t [|]];
      [rewrite Hresize|]; split; reflexivity.
  - destruct (throttle_expire (Refined.throttledHandleScroll e)) as [t [|]];
      [rewrite Hscroll|]; split; reflexivity.
  - destruct (throttle_expire (Refined.throttledHandleResize e)) as [t [|]];
      [rewrite Hresize|]; split; reflexivity.
Qed.

(** X9. Refined variant: as long as no intersection notification carries an
    intersecting entry, nothing is written and the closure state stays as
    it is, whatever scroll, resize, timer, mount and cleanup events
    arrive. *)
Theorem refined_silent_before_trigger
    (c : Config) (trace : list (Host * Refined.Event)) (e : Refined.Engine) :
  Refined.hasStartedExpanding (Refined.state e) = false ->
  forallb (fun p => negb (firesRefined (snd p))) trace = true ->
  snd (Refined.run c trace e) = []
  /\ Refined.state (fst (Refined.run c trace e)) = Refined.state e.
Proof.
  revert e. induction trace as [|[h ev] rest IH]; intros e Hf Hall; simpl.
  - split; reflexivity.
  - simpl in Hall. apply andb_prop in Hall as [Hev Hrest].
    apply negb_true_iff in Hev.
    destruct (refined_step_silent c h ev e Hf Hev) as [Hw Hst].
    destruct (Refined.step c h ev e) as [e1 ws1]. simpl in Hw, Hst.
    rewrite <- Hst in Hf.
    destruct (IH e1 Hf Hrest) as [Hw2 Hst2].
    destruct (Refined.run c rest e1) as [e2 ws2]. simpl in *.
    subst ws1 ws2. split; [reflexivity | congruence].
Qed.

Lemma refined_silent_before_trigger_witness :
  let c := destructure noOptions in
  let trace :=
    [ (hostScrolledTo 100, Refined.EffectRun);
      (hostScrolledTo 100,
       Refined.Intersection
         [{| isIntersecting := false; target := sampleElement |}]);
      (hostScrolledTo 300, Refined.Scroll);
      (hostScrolledTo 300, Refined.Resize);
      (hostScrolledTo 400, Refined.Scroll);
      (hostScrolledTo 400, Refined.ScrollTimer) ] in
  snd (Refined.run c trace (Refined.start c)) = []
  /\ Refined.state (fst (Refined.run c trace (Refined.start c)))
     = Refined.init c.
Proof.
  intros c trace.
  apply (refined_silent_before_trigger c trace (Refined.start c));
    reflexivity.
Defined.

(** X10. Middle and offset variant: as long as no intersection
    notification carries an intersecting entry, nothing is written and the
    closure state stays as it is, whatever mount, cleanup, scroll and
    non-intersecting notifications arrive. *)
Theorem unthrottled_silent_before_trigger :
  (forall c trace e,
     Middle.hasStartedExpanding (Middle.state e) = false ->
     forallb (fun p => negb (firesMiddle (snd p))) trace = true ->
     snd (runMiddle c trace e) = []
     /\ Middle.state (fst (runMiddle c trace e)) = Middle.state e)
  /\ (forall client c trace e,
        StickyBox.isExpansionTriggered (StickyBox.state e) = false ->
        forallb (fun p => negb (firesStickyBox (snd p))) trace = true ->
        snd (runStickyBox client c trace e) = []
        /\ StickyBox.state (fst (runStickyBox client c trace e))
           = StickyBox.state e).
Proof.
  split.
  - intros c trace. induction trace as [|[h ev] rest IH]; intros e Hf Hall;
      simpl; [split; reflexivity|].
    simpl in Hall. apply andb_prop in Hall as [Hev Hrest].
    apply negb_true_iff in Hev.
    assert (Hs : snd (Middle.step c h ev e) = []
                 /\ Middle.state (fst (Middle.step c h ev e))
                    = Middle.state e).
    { destruct ev; simpl in *.
      - destruct (stickyElementRef h), (containerRef h); split; reflexivity.
      - split; reflexivity.
      - destruct (Middle.observing e); [|split; reflexivity].
        unfold Middle.observerCallback.
        rewrite (middle_callback_none (window h) entries _ Hev).
        split; reflexivity.
      - destruct (Middle.scrollListener e); [|split; reflexivity].
        unfold Middle.handleScroll. rewrite Hf. split; reflexivity. }
    destruct Hs as [Hw Hst].
    destruct (Middle.step c h ev e) as [e1 ws1]. simpl in Hw, Hst.
    rewrite <- Hst in Hf.
    destruct (IH e1 Hf Hrest) as [Hw2 Hst2].
    destruct (runMiddle c rest e1) as [e2 ws2]. simpl in *.
    subst ws1 ws2. split; [reflexivity | congruence].
  - intros client c trace.
    induction trace as [|[h ev] rest IH]; intros e Hf Hall;
      simpl; [split; reflexivity|].
    simpl in Hall. apply andb_prop in Hall as [Hev Hrest].
    apply negb_true_iff in Hev.
    assert (Hs : snd (StickyBox.step client c h ev e) = []
                 /\ StickyBox.state (fst (StickyBox.step client c h ev e))
                    = StickyBox.state e).
    { destruct ev; simpl in *.
      - destruct client; simpl; [|split; reflexivity].
        destruct (stickyElementRef h), (containerRef h); split; reflexivity.
      - destruct client; split; reflexivity.
      - destruct (StickyBox.triggerObserver e) as [[|]|];
          try (split; reflexivity).
        unfold StickyBox.triggerCallback.
        rewrite (stickyBox_callback_none (window h) entries _ Hev).
        split; reflexivity.
      - destruct (StickyBox.scrollListener e); [|split; reflexivity].
        unfold StickyBox.handleScroll. rewrite Hf. split; reflexivity. }
    destruct Hs as [Hw Hst].
    destruct (StickyBox.step client c h ev e) as [e1 ws1]. simpl in Hw, Hst.
    rewrite <- Hst in Hf.
    destruct (IH e1 Hf Hrest) as [Hw2 Hst2].
    destruct (runStickyBox client c rest e1) as [e2 ws2]. simpl in *.
    subst ws1 ws2. split; [reflexivity | congruence].
Qed.

Lemma unthrottled_silent_before_trigger_witness :
  snd (runStickyBox true stickyBoxDefaults
         [ (hostScrolledTo 100, StickyBox.Mounted);
           (hostScrolledTo 300, StickyBox.Scroll);
           (hostScrolledTo 900, StickyBox.Scroll) ] StickyBox.start) = []
  /\ StickyBox.state
       (fst (runStickyBox true stickyBoxDefaults
               [ (hostScrolledTo 100, StickyBox.Mounted);
                 (hostScrolledTo 300, StickyBox.Scroll);
                 (hostScrolledTo 900, StickyBox.Scroll) ] StickyBox.start))
     = StickyBox.init.
Proof.
  apply (proj2 unthrottled_silent_before_trigger true stickyBoxDefaults
           [ (hostScrolledTo 100, StickyBox.Mounted);
             (hostScrolledTo 300, StickyBox.Scroll);
             (hostScrolledTo 900, StickyBox.Scroll) ] StickyBox.start);
    reflexivity.
Defined.

(** X11. Refined variant: the [watchEffect] body subscribes only when both refs
    are mounted.  From the initial engine, a trace in which no run of the
    body finds both refs mounted leaves the engine as it started and writes
    nothing, intersection notifications included. *)
Theorem refined_never_attached
    (c : Config) (trace : list (Host * Refined.Event)) :
  forallb (fun p => negb (attaches p)) trace = true ->
  Refined.run c trace (Refined.start c) = (Refined.start c, []).
Proof.
  induction trace as [|[h ev] rest IH]; simpl; intros Hall.
  - reflexivity.
  - apply andb_prop in Hall as [Hev Hrest]. apply negb_true_iff in Hev.
    assert (Hs : Refined.step c h ev (Refined.start c)
                 = (Refined.start c, [])).
    { unfold attaches in Hev. simpl in Hev.
      destruct ev; simpl; try reflexivity.
      destruct (stickyElementRef h), (containerRef h);
        try reflexivity; discriminate. }
    rewrite Hs, (IH Hrest). reflexivity.
Qed.

Lemma refined_never_attached_witness :
  Refined.run (destructure noOptions)
    [ (unmountedContainer, Refined.EffectRun);
      (unmountedContainer, Refined.Intersection [intersectingEntry]);
      (unmountedContainer, Refined.Scroll);
      (unmountedContainer, Refined.ResizeTimer) ]
    (Refined.start (destructure noOptions))
  = (Refined.start (destructure noOptions), []).
Proof.
  apply (refined_never_attached (destructure noOptions)
           [ (unmountedContainer, Refined.EffectRun);
             (unmountedContainer, Refined.Intersection [intersectingEntry]);
             (unmountedContainer, Refined.Scroll);
             (unmountedContainer, Refined.ResizeTimer) ]).
  reflexivity.
Defined.

(** X12. Offset variant on the server ([process.client] false): mounting
    subscribes nothing, so every trace from the initial engine leaves it
    unchanged and writes nothing. *)
Theorem stickyBox_server_side_inert
    (c : StickyBox.Config) (trace : list (Host * StickyBox.Event)) :
  runStickyBox false c trace StickyBox.start = (StickyBox.start, []).
Proof.
  induction trace as [|[h ev] rest IH]; simpl.
  - reflexivity.
  - assert (Hs : StickyBox.step false c h ev StickyBox.start
                 = (StickyBox.start, []))
      by (destruct ev; reflexivity).
    rewrite Hs, IH. reflexivity.
Qed.

(** X13. In the two unthrottled variants teardown is complete: after the cleanup
    (after [onUnmounted] on the client) scroll and intersection events
    change nothing and write nothing. *)
Theorem unthrottled_teardown_complete :
  (forall c hc e trace,
     forallb (fun p => isMiddleNotification (snd p)) trace = true ->
     runMiddle c trace (fst (Middle.step c hc Middle.Cleanup e))
     = (fst (Middle.step c hc Middle.Cleanup e), []))
  /\ (forall c hc e trace,
        forallb (fun p => isStickyBoxNotification (snd p)) trace = true ->
        runStickyBox true c trace
          (fst (StickyBox.step true c hc StickyBox.Unmounted e))
        = (fst (StickyBox.step true c hc StickyBox.Unmounted e), [])).
Proof.
  split.
  - intros c hc e trace. simpl.
    induction trace as [|[h ev] rest IH]; simpl; intros Hall.
    + reflexivity.
    + apply andb_prop in Hall as [Hev Hrest].
      destruct ev; try discriminate; simpl; rewrite (IH Hrest); reflexivity.
  - intros c hc e trace. simpl.
    induction trace as [|[h ev] rest IH]; simpl; intros Hall.
    + reflexivity.
    + apply andb_prop in Hall as [Hev Hrest].
      destruct ev; try discriminate; simpl;
        destruct (StickyBox.triggerObserver e); simpl;
        rewrite (IH Hrest); reflexivity.
Qed.

Lemma unthrottled_teardown_complete_witness :
  let e := fst (runMiddle (destructure noOptions)
                  [ (hostScrolledTo 500, Middle.EffectRun);
                    (hostScrolledTo 500,
                     Middle.Intersection [intersectingEntry]) ]
                  Middle.start) in
  let e' := fst (Middle.step (destructure noOptions) (hostScrolledTo 600)
                   Middle.Cleanup e) in
  runMiddle (destructure noOptions)
    [ (hostScrolledTo 700, Middle.Scroll);
      (hostScrolledTo 800, Middle.Scroll) ] e' = (e', []).
Proof.
  exact (proj1 unthrottled_teardown_complete (destructure noOptions)
           (hostScrolledTo 600) _
           [ (hostScrolledTo 700, Middle.Scroll);
             (hostScrolledTo 800, Middle.Scroll) ] eq_refl).
Defined.

(** X14. Refined variant: the closure state outlives the subscriptions.  When
    the effect is cleaned up and runs again after the trigger has fired, the
    recorded anchor is kept, the new observer is subscribed, and no
    intersection notification of the new cycle changes the state, writes a
    height or unsubscribes the observer. *)
Theorem refined_remount_keeps_trigger
    (c : Config) (hc hr : Host) (e : Refined.Engine)
    (stickyEl container : HTMLElement) :
  Refined.hasStartedExpanding (Refined.state e) = true ->
  stickyElementRef hr = Some stickyEl ->
  containerRef hr = Some container ->
  let e1 := fst (Refined.run c [(hc, Refined.Cleanup); (hr, Refined.EffectRun)]
                   e) in
  Refined.state e1 = Refined.state e
  /\ Refined.observing e1 = true
  /\ Refined.scrollListener e1 = true
  /\ Refined.resizeListener e1 = true
  /\ (forall h entries,
        Refined.step c h (Refined.Intersection entries) e1 = (e1, [])).
Proof.
  intros Hf Hs Hc. simpl. rewrite Hs, Hc. simpl.
  repeat split.
  intros h entries. simpl. unfold Refined.observerCallback.
  rewrite (refined_callback_fired c (window h) entries _ [] true Hf).
  reflexivity.
Qed.

Lemma refined_remount_keeps_trigger_witness :
  let c := destructure noOptions in
  let e1 := fst (Refined.run c
                   [ (hostScrolledTo 650, Refined.Cleanup);
                     (hostScrolledTo 900, Refined.EffectRun) ]
                   enginePendingScroll) in
  Refined.state e1 = Refined.state enginePendingScroll
  /\ Refined.observing e1 = true
  /\ Refined.scrollListener e1 = true
  /\ Refined.resizeListener e1 = true
  /\ (forall h entries,
        Refined.step c h (Refined.Intersection entries) e1 = (e1, [])).
Proof.
  exact (refined_remount_keeps_trigger (destructure noOptions)
           (hostScrolledTo 650) (hostScrolledTo 900) enginePendingScroll
           sampleElement sampleContainer eq_refl eq_refl eq_refl).
Defined.

(** ** A scroll right after an anchor is set *)

Lemma refined_scroll_at_anchor (c : Config) (h : Host)
    (stickyEl container : HTMLElement) :
  stickyElementRef h = Some stickyEl ->
  containerRef h = Some container ->
  minHeight c <= maxHeight c ->
  let fit := fitHeight c (window h) stickyEl in
  let anchored :=
    {| Refined.hasStartedExpanding := true;
       Refined.expansionStartScrollY := scrollY (window h);
       Refined.expansionStartHeight := fit |} in
  exists v,
    Refined.handleScroll c h anchored = (anchored, [v])
    /\ v <= fit
    /\ (stickyTriggerOffset c + fit
          <= bottom (getBoundingClientRect container) -> v = fit).
Proof.
  intros Hs Hc Hle fit anchored. eexists. split.
  - apply (refined_handleScroll_fired c h anchored stickyEl container);
      [reflexivity | exact Hs | exact Hc].
  - rewrite refined_finalHeight_closed_form.
    unfold Refined.scrollDrivenHeight, Refined.viewportLimitedHeight,
      anchored, fit, fitHeight, clamp.
    simpl. lia.
Qed.

(** X15. Refined variant, ordered bounds, both refs mounted.  A scroll handled
    on the layout on which a resize has just re-anchored, or on which the
    trigger has just fired for the sticky element, never writes more than
    the fit height written a moment before, and writes exactly that height
    when the container ends at or below the trigger offset plus it. *)
Theorem refined_scroll_after_anchor
    (c : Config) (h : Host) (st : Refined.State)
    (stickyEl container : HTMLElement) :
  stickyElementRef h = Some stickyEl ->
  containerRef h = Some container ->
  minHeight c <= maxHeight c ->
  let fit := fitHeight c (window h) stickyEl in
  (Refined.hasStartedExpanding st = true ->
   snd (Refined.handleResize c h st) = [fit]
   /\ exists v,
        snd (Refined.handleScroll c h (fst (Refined.handleResize c h st)))
        = [v]
        /\ v <= fit
        /\ (stickyTriggerOffset c + fit
              <= bottom (getBoundingClientRect container) -> v = fit))
  /\ (Refined.hasStartedExpanding st = false ->
      let fired :=
        Refined.observerCallback c (window h)
          [{| isIntersecting := true; target := stickyEl |}] st true in
      snd (fst fired) = [fit]
      /\ exists v,
           snd (Refined.handleScroll c h (fst (fst fired))) = [v]
           /\ v <= fit
           /\ (stickyTriggerOffset c + fit
                 <= bottom (getBoundingClientRect container) -> v = fit)).
Proof.
  intros Hs Hc Hle fit.
  destruct (refined_scroll_at_anchor c h stickyEl container Hs Hc Hle)
    as (v & Hv & Hle_fit & Heq).
  split.
  - intros Hf. rewrite (refined_handleResize_fired c h st stickyEl Hf Hs).
    simpl. split; [reflexivity|].
    exists v. rewrite Hv. repeat split; assumption.
  - intros Hf fired. unfold fired.
    rewrite (refined_callback_first c (window h)
               [{| isIntersecting := true; target := stickyEl |}] st true
               {| isIntersecting := true; target := stickyEl |} Hf eq_refl).
    cbn [fst snd target]. split; [reflexivity|].
    exists v. rewrite Hv. repeat split; assumption.
Qed.

Lemma refined_scroll_after_anchor_witness :
  let c := destructure noOptions in
  let h := hostWithContainerBottom 1200 in
  snd (Refined.handleResize c h firedRefined) = [900]
  /\ exists v,
       snd (Refined.handleScroll c h (fst (Refined.handleResize c h
                                             firedRefined))) = [v]
       /\ v <= 900
       /\ (80 + 900 <= 1200 -> v = 900).
Proof.
  intros c h.
  refine (proj1 (refined_scroll_after_anchor c h firedRefined sampleElement
                   _ eq_refl eq_refl _) eq_refl).
  simpl. lia.
Defined.

(** ** The offset variant: three phases in the scroll offset *)

Ltac split_comparisons :=
  repeat match goal with
  | |- context [?a <? ?b] => destruct (Z.ltb_spec a b)
  | |- context [?a <=? ?b] => destruct (Z.leb_spec a b)
  end; cbn [andb].

(** X16. Offset variant.  When the locked window is not empty
    ([stickyStartPoint <= stickyEndPoint]) the height written is a
    function of the scroll offset that changes by no more than the offset
    does: the three phases join without a jump. *)
Theorem stickyBox_height_follows_scroll
    (c : StickyBox.Config) (w : Window) (parentContainer : HTMLElement)
    (st : StickyBox.State) (y1 y2 : Z) :
  StickyBox.stickyStartPoint c parentContainer
  <= StickyBox.stickyEndPoint c parentContainer st ->
  Z.abs (StickyBox.clampedHeight c (atScrollY y1 w) parentContainer st
         - StickyBox.clampedHeight c (atScrollY y2 w) parentContainer st)
  <= Z.abs (y1 - y2).
Proof.
  unfold StickyBox.clampedHeight, StickyBox.newHeight, atScrollY.
  cbn [scrollY].
  generalize (StickyBox.stickyEndPoint c parentContainer st) as E.
  unfold StickyBox.finalStickyHeight.
  generalize (StickyBox.stickyStartPoint c parentContainer) as S.
  intros S E Hse. split_comparisons; lia.
Qed.

Lemma stickyBox_height_follows_scroll_witness :
  Z.abs (StickyBox.clampedHeight stickyBoxDefaults
           (atScrollY 215 (window sampleHost)) sampleContainer firedStickyBox
         - StickyBox.clampedHeight stickyBoxDefaults
             (atScrollY 225 (window sampleHost)) sampleContainer
             firedStickyBox)
  <= Z.abs (215 - 225).
Proof.
  apply (stickyBox_height_follows_scroll stickyBoxDefaults (window sampleHost)
           sampleContainer firedStickyBox 215 225).
  vm_compute. discriminate.
Defined.

(** X17. Offset variant, the three phases.  Before the sticky start point and
    no further than [bottomOffset] past the recorded offset, the handler
    writes [minHeight].  Inside the locked window it writes the same height
    at every offset.  Past the end point by the locked height minus
    [minHeight] or more, it writes [minHeight] again. *)
Theorem stickyBox_phases
    (c : StickyBox.Config) (w : Window) (parentContainer : HTMLElement)
    (st : StickyBox.State) :
  let S := StickyBox.stickyStartPoint c parentContainer in
  let E := StickyBox.stickyEndPoint c parentContainer st in
  let F := StickyBox.finalStickyHeight c parentContainer st in
  (forall y,
     y < S ->
     y <= StickyBox.expansionStartScrollY st + StickyBox.bottomOffset c ->
     StickyBox.clampedHeight c (atScrollY y w) parentContainer st
     = StickyBox.minHeight c)
  /\ (forall y y',
        S <= y < E -> S <= y' < E ->
        StickyBox.clampedHeight c (atScrollY y w) parentContainer st
        = StickyBox.clampedHeight c (atScrollY y' w) parentContainer st)
  /\ (forall y,
        S <= y -> E <= y -> E + (F - StickyBox.minHeight c) <= y ->
        StickyBox.clampedHeight c (atScrollY y w) parentContainer st
        = StickyBox.minHeight c).
Proof.
  intros S E F.
  unfold StickyBox.clampedHeight, StickyBox.newHeight, atScrollY.
  cbn [scrollY]. fold S E F.
  repeat split.
  - intros y Hy Ha. split_comparisons; lia.
  - intros y y' Hy Hy'. split_comparisons; lia.
  - intros y Hs He Hfar. split_comparisons; lia.
Qed.

Lemma stickyBox_phases_witness :
  StickyBox.clampedHeight stickyBoxDefaults
    (atScrollY 100 (window sampleHost))
    {| getBoundingClientRect := {| top := 0; bottom := 0 |};
       offsetTop := 900; offsetHeight := 3000 |}
    {| StickyBox.isExpansionTriggered := true;
       StickyBox.expansionStartScrollY := 500 |} = 640
  /\ StickyBox.clampedHeight stickyBoxDefaults
       (atScrollY 4000 (window sampleHost))
       {| getBoundingClientRect := {| top := 0; bottom := 0 |};
          offsetTop := 900; offsetHeight := 3000 |}
       {| StickyBox.isExpansionTriggered := true;
          StickyBox.expansionStartScrollY := 500 |} = 640.
Proof.
  pose proof (stickyBox_phases stickyBoxDefaults (window sampleHost)
                {| getBoundingClientRect := {| top := 0; bottom := 0 |};
                   offsetTop := 900; offsetHeight := 3000 |}
                {| StickyBox.isExpansionTriggered := true;
                   StickyBox.expansionStartScrollY := 500 |})
    as (Hbefore & _ & Hafter).
  split.
  - apply (Hbefore 100); vm_compute; congruence.
  - apply (Hafter 4000); vm_compute; congruence.
Defined.

(** X18. Offset variant: the height written depends on the scroll offset, the
    container's document offsets and the recorded offset only.  Two hosts
    that agree on those, and on whether the sticky box is mounted, get the
    same result, whatever the viewport height and the bounding boxes are;
    the handler's own height writes do not feed back into it. *)
Theorem stickyBox_ignores_viewport_geometry
    (c : StickyBox.Config) (h1 h2 : Host) (st : StickyBox.State)
    (box1 box2 container1 container2 : HTMLElement) :
  scrollY (window h1) = scrollY (window h2) ->
  stickyElementRef h1 = Some box1 ->
  stickyElementRef h2 = Some box2 ->
  containerRef h1 = Some container1 ->
  containerRef h2 = Some container2 ->
  offsetTop container1 = offsetTop container2 ->
  offsetHeight container1 = offsetHeight container2 ->
  StickyBox.handleScroll c h1 st = StickyBox.handleScroll c h2 st.
Proof.
  intros Hy Hb1 Hb2 Hc1 Hc2 Htop Hheight.
  unfold StickyBox.handleScroll. rewrite Hb1, Hb2, Hc1, Hc2.
  destruct (StickyBox.isExpansionTriggered st); [|reflexivity]. simpl.
  unfold StickyBox.clampedHeight, StickyBox.newHeight,
    StickyBox.stickyEndPoint, StickyBox.finalStickyHeight,
    StickyBox.stickyStartPoint.
  rewrite Hy, Htop, Hheight. reflexivity.
Qed.

Lemma stickyBox_ignores_viewport_geometry_witness :
  StickyBox.handleScroll stickyBoxDefaults sampleHost firedStickyBox
  = StickyBox.handleScroll stickyBoxDefaults
      {| window := {| scrollY := 1200; innerHeight := 400 |};
         stickyElementRef := Some sampleContainer;
         containerRef :=
           Some {| getBoundingClientRect := {| top := 7; bottom := 9 |};
                   offsetTop := 300; offsetHeight := 1550 |} |}
      firedStickyBox.
Proof.
  exact (stickyBox_ignores_viewport_geometry stickyBoxDefaults sampleHost
           {| window := {| scrollY := 1200; innerHeight := 400 |};
              stickyElementRef := Some sampleContainer;
              containerRef :=
                Some {| getBoundingClientRect := {| top := 7; bottom := 9 |};
                        offsetTop := 300; offsetHeight := 1550 |} |}
           firedStickyBox sampleElement sampleContainer sampleContainer
           {| getBoundingClientRect := {| top := 7; bottom := 9 |};
              offsetTop := 300; offsetHeight := 1550 |}
           eq_refl eq_refl eq_refl eq_refl eq_refl eq_refl eq_refl).
Defined.

(** ** The middle variant under scrolling *)

(** X19. Middle variant, non-negative padding, layout and state fixed: scrolling
    further down never makes the handler write a smaller height. *)
Theorem middle_finalHeight_scroll_monotone
    (c : Config) (w : Window) (containerRect stickyElRect : DOMRect)
    (st : Middle.State) (y1 y2 : Z) :
  0 <= stickyPadding c ->
  y1 <= y2 ->
  Middle.finalHeight c (atScrollY y1 w) containerRect stickyElRect st
  <= Middle.finalHeight c (atScrollY y2 w) containerRect stickyElRect st.
Proof.
  intros Hp Hy.
  unfold Middle.finalHeight, Middle.rawHeight, Middle.isCollapsing,
    Middle.potentialHeight, Middle.currentMaxHeight,
    Middle.scrollDrivenHeight, Middle.viewportLimitedHeight, atScrollY.
  rewrite !middle_collapsedHeight_eq. cbn [scrollY innerHeight].
  split_comparisons; lia.
Qed.

Lemma middle_finalHeight_scroll_monotone_witness :
  Middle.finalHeight (destructure noOptions)
    (atScrollY 600 (window sampleHost))
    (getBoundingClientRect sampleContainer)
    (getBoundingClientRect sampleElement) firedMiddle
  <= Middle.finalHeight (destructure noOptions)
       (atScrollY 900 (window sampleHost))
       (getBoundingClientRect sampleContainer)
       (getBoundingClientRect sampleElement) firedMiddle.
Proof.
  apply (middle_finalHeight_scroll_monotone (destructure noOptions)
           (window sampleHost) (getBoundingClientRect sampleContainer)
           (getBoundingClientRect sampleElement) firedMiddle 600 900);
    simpl; lia.
Defined.
